(** * Trace propagation over gRPC: a shallow embedding of [grpc.go]

    The file models the four interceptors of package [trace] (unary client,
    unary server, streaming client, streaming server) and the two stream
    wrappers, together with the parts of the package they call and that are
    not part of [grpc.go]: the header codec and the span operations.

    Go pointers are locations in an explicit store, [nil] is [None], the
    metadata bags (Go maps, hence references) live in a store of their own so
    that aliasing between a caller's bag and the bag installed on the call
    context is visible, and a call that may panic returns a [Res]. *)

From Stdlib Require Import NArith Ascii String Decimal DecimalString DecimalN DecimalPos.
From stdpp Require Import gmap strings list.

Open Scope N_scope.

(** ** Header codec *)

(** [strings.Index(h, c)] followed by the two slices [h[:i]] and [h[i+1:]]:
    the text before the first [c] and the text after it, or [None] when
    [c] does not occur. *)
Fixpoint cut (c : ascii) (s : string) : option (string * string) :=
  match s with
  | EmptyString => None
  | String a r =>
      if Ascii.eqb a c then Some (EmptyString, r)
      else match cut c r with
           | Some (x, y) => Some (String a x, y)
           | None => None
           end
  end.

Fixpoint occurs (c : ascii) (s : string) : bool :=
  match s with
  | EmptyString => false
  | String a r => Ascii.eqb a c || occurs c r
  end.

(** The verb [%d] applied to an unsigned integer. *)
Definition formatUint (n : N) : string :=
  NilEmpty.string_of_uint (N.to_uint n).

Definition uint64_max : N := 2 ^ 64 - 1.

(** A decimal field of the header: digits only, at least one, and a value
    that fits in 64 bits. *)
Definition parseUint (s : string) : option N :=
  match s with
  | EmptyString => None
  | _ =>
      match NilEmpty.uint_of_string s with
      | Some d => let n := N.of_uint d in
                  if n <=? uint64_max then Some n else None
      | None => None
      end
  end.

(** Modelled from the spec: [spanHeader] is the encoder of the header codec;
    it is called by [grpc.go] and defined elsewhere in the package. It
    produces [<traceID>/<spanID>;o=<options>] with the span id and the
    options in decimal. *)
Definition spanHeader (traceID : string) (spanID : N) (options : N) : string :=
  traceID +:+ "/" +:+ formatUint spanID +:+ ";o=" +:+ formatUint options.

(** Modelled from the spec: [decode] is the decoder of the header codec,
    defined outside [grpc.go]. It is a best-effort parse: a field that is
    missing or malformed takes its zero value, and no input makes it fail. *)
Definition orZero (r : option N) : N :=
  match r with Some n => n | None => 0 end.

Definition decode (h : string) : string * N * N :=
  let '(tid, rest) :=
    match cut "/" h with Some p => p | None => (h, EmptyString) end in
  let '(spanstr, opt) :=
    match cut ";" rest with Some p => p | None => (rest, EmptyString) end in
  let o := match opt with
           | String "o" (String "=" d) => orZero (parseUint d)
           | _ => 0
           end in
  (tid, orZero (parseUint spanstr), o).

Definition is_digit (a : ascii) : bool :=
  (48 <=? N_of_ascii a) && (N_of_ascii a <=? 57).

Fixpoint all_digits (s : string) : bool :=
  match s with
  | EmptyString => true
  | String a r => is_digit a && all_digits r
  end.

Definition valid_triple (traceID : string) (spanID options : N) : Prop :=
  occurs "/" traceID = false /\ spanID <= uint64_max /\ options <= uint64_max.

(** ** Values exchanged with gRPC *)

(** A Go pointer: an address in one of the stores of [World]; a pointer
    variable is an [option ptr], [None] being [nil]. *)
Abbreviation ptr := positive.

(** The Go interface [error]: [Error] is its one method. *)
Record error := mkError { errCode : N; Error : string }.

(** Requests, replies and stream messages ([interface{}] in the source). *)
Definition payload := string.

(** [metadata.MD]: header key to ordered sequence of values. *)
Abbreviation MD := (gmap string (list string)).

Definition grpcMetadataKey : string := "x-cloud-trace-context".

(** The fields of [trace] and of [api.TraceSpan] that [grpc.go] reads
    ([span.trace.traceID], [span.trace.globalOptions],
    [span.span.ParentSpanId]) and the span id. The source holds the trace by
    pointer; the two fields read here never change once a trace exists, so
    the record is kept by value. *)
Record Trace := mkTrace { traceID : string; globalOptions : N }.

Record TraceSpan := mkTraceSpan { Name : string; SpanId : N; ParentSpanId : N }.

(** Modelled from the spec: the [Span] object is declared outside [grpc.go].
    It owns its identifiers and a label mapping, and it is terminated by
    [Finish]; [finished] records that this has happened. *)
Record Span := mkSpan {
  trace : Trace;
  span : TraceSpan;
  labels : gmap string string;
  finished : bool
}.

(** [context.Context], reduced to the three values this package reads or
    installs, plus [ctxRest] for everything else a context carries. *)
Record Context := mkContext {
  ctxSpan : option ptr;
  ctxOutgoing : option ptr;
  ctxIncoming : option ptr;
  ctxRest : N
}.

(** The owning trace session ([*Client]); its internals are not read. *)
Definition Client := unit.

(** Calls that leave the package, recorded in order together with what was
    passed, and every [Finish] that reached a span. The history is never
    read by the program. *)
Inductive Event :=
| EvInvoke (ctx : Context) (md : option MD)
| EvStreamer (ctx : Context) (md : option MD)
| EvHandler (ctx : Context)
| EvStreamHandler (wrapped : bool) (ctx : Context)
| EvFinish (p : ptr).

Inductive Res (A : Type) :=
| Val (a : A)
| Panic.
Arguments Val {A} a.
Arguments Panic {A}.

Section Model.
Context {T : Type}.

(** [T] is the state of everything outside the package: the transport and
    the application. [spans] and [bags] are the two stores, [reported] lists
    the spans handed to the reporting backend, oldest first. *)
Record World := mkWorld {
  spans : gmap ptr Span;
  bags : gmap ptr MD;
  reported : list ptr;
  idSupply : N;
  transport : T;
  history : list Event
}.

Definition set_spans (f : gmap ptr Span -> gmap ptr Span) (w : World) : World :=
  mkWorld (f (spans w)) (bags w) (reported w) (idSupply w) (transport w) (history w).
Definition set_bags (f : gmap ptr MD -> gmap ptr MD) (w : World) : World :=
  mkWorld (spans w) (f (bags w)) (reported w) (idSupply w) (transport w) (history w).
Definition set_reported (f : list ptr -> list ptr) (w : World) : World :=
  mkWorld (spans w) (bags w) (f (reported w)) (idSupply w) (transport w) (history w).
Definition set_idSupply (n : N) (w : World) : World :=
  mkWorld (spans w) (bags w) (reported w) n (transport w) (history w).
Definition set_transport (t : T) (w : World) : World :=
  mkWorld (spans w) (bags w) (reported w) (idSupply w) t (history w).
Definition record (e : Event) (w : World) : World :=
  mkWorld (spans w) (bags w) (reported w) (idSupply w) (transport w) (history w ++ [e]).

(** ** The monad of the package's code: state, and panics *)

Definition M (A : Type) : Type := World -> Res A * World.

Definition ret {A} (a : A) : M A := fun w => (Val a, w).

Definition panic {A} : M A := fun w => (Panic, w).

Definition bind {A B} (m : M A) (k : A -> M B) : M B :=
  fun w => match m w with
           | (Val a, w1) => k a w1
           | (Panic, w1) => (Panic, w1)
           end.

(** [defer d; body]: the deferred call runs when the function returns and
    also when [body] panics, after which the panic goes on. *)
Definition defer {A} (d : M unit) (body : M A) : M A :=
  fun w => match body w with
           | (r, w1) => match d w1 with
                        | (Val _, w2) => (r, w2)
                        | (Panic, w2) => (Panic, w2)
                        end
           end.

Definition modify (f : World -> World) : M unit := fun w => (Val tt, f w).

(** Run a call into the world outside the package. *)
Definition outside {A} (f : T -> Res A * T) : M A :=
  fun w => match f (transport w) with
           | (r, t) => (r, set_transport t w)
           end.

End Model.

Arguments World : clear implicits.
Arguments M : clear implicits.

Notation "'let*' x ':=' c 'in' k" := (bind c (fun x => k))
  (at level 10, x binder, c at level 100, k at level 200).

Section Package.
Context {T : Type}.
Local Abbreviation M := (M T).
Local Abbreviation World := (World T).

(** ** Stores *)

Definition loadSpan (p : ptr) : M Span :=
  fun w => match spans w !! p with
           | Some s => (Val s, w)
           | None => (Panic, w)
           end.

Definition allocSpan (s : Span) : M ptr :=
  fun w => let p := fresh (dom (spans w)) in
           (Val p, set_spans <[p := s]> w).

Definition loadBag (l : ptr) : M MD :=
  fun w => match bags w !! l with
           | Some md => (Val md, w)
           | None => (Panic, w)
           end.

Definition allocBag (md : MD) : M ptr :=
  fun w => let l := fresh (dom (bags w)) in
           (Val l, set_bags <[l := md]> w).

(** A fresh 64-bit span identifier. *)
Definition nextSpanID : M N :=
  fun w => (Val (idSupply w), set_idSupply ((idSupply w + 1) mod 2 ^ 64) w).

(** ** Package [metadata] of gRPC *)

Definition FromOutgoingContext (ctx : Context) : option ptr := ctxOutgoing ctx.

Definition FromIncomingContext (ctx : Context) : option ptr := ctxIncoming ctx.

Definition NewOutgoingContext (ctx : Context) (md : ptr) : Context :=
  mkContext (ctxSpan ctx) (Some md) (ctxIncoming ctx) (ctxRest ctx).

(** [metadata.Pairs(k, v)]: a new bag with the one entry ([k] is lower case
    already). *)
Definition Pairs (k v : string) : M ptr := allocBag {[ k := [v] ]}.

(** [md.Copy()]: a new bag with the same entries. *)
Definition Copy (md : ptr) : M ptr :=
  let* m := loadBag md in allocBag m.

(** [md[k] = vs]: the assignment writes into the bag [md] points to. *)
Definition assign (md : ptr) (k : string) (vs : list string) : M unit :=
  let* m := loadBag md in modify (set_bags <[md := <[k := vs]> m]>).

(** [vs, ok := md[k]]; indexing a nil map finds nothing. *)
Definition index (md : option ptr) (k : string) : M (option (list string)) :=
  match md with
  | None => ret None
  | Some l => let* m := loadBag l in ret (m !! k)
  end.

(** The outgoing bag a callee finds on the context it is given. *)
Definition outgoingMD (ctx : Context) (w : World) : option MD :=
  match ctxOutgoing ctx with
  | Some l => bags w !! l
  | None => None
  end.

(** ** Spans *)

(** Modelled from the spec: [FromContext] is the package's
    [spanFromContext(ctx) -> Span|absent]. *)
Definition FromContext (ctx : Context) : option ptr := ctxSpan ctx.

(** Modelled from the spec: [NewContext] is the package's
    [contextWithSpan(ctx, span) -> ctx']. *)
Definition NewContext (ctx : Context) (sp : option ptr) : Context :=
  mkContext sp (ctxOutgoing ctx) (ctxIncoming ctx) (ctxRest ctx).

(** Modelled from the spec: [NewChild] is the span's [newChild(name)]. The
    child has a new span id, the trace (trace id and global options) of its
    parent, and the parent's span id as parent-span-id; an absent span has no
    child. *)
Definition NewChild (s : option ptr) (name : string) : M (option ptr) :=
  match s with
  | None => ret None
  | Some p =>
      let* parent := loadSpan p in
      let* id := nextSpanID in
      let* c := allocSpan
        (mkSpan (trace parent) (mkTraceSpan name id (SpanId (span parent))) ∅ false) in
      ret (Some c)
  end.

(** Modelled from the spec: [Finish] is the span's [finish()]. It is
    idempotent: the first call closes the span and hands it to the reporting
    backend, a later call changes nothing; on an absent span it does
    nothing. *)
Definition Finish (s : option ptr) : M unit :=
  match s with
  | None => ret tt
  | Some p =>
      let* sp := loadSpan p in
      let* _ := modify (record (EvFinish p)) in
      if finished sp then ret tt
      else modify (fun w =>
             set_reported (fun r => r ++ [p])
               (set_spans <[p := mkSpan (trace sp) (span sp) (labels sp) true]> w))
  end.

(** Modelled from the spec: [SetLabel] is the span's [setLabel(key, value)];
    on an absent span it does nothing. *)
Definition SetLabel (s : option ptr) (key value : string) : M unit :=
  match s with
  | None => ret tt
  | Some p =>
      let* sp := loadSpan p in
      modify (set_spans
        <[p := mkSpan (trace sp) (span sp) (<[key := value]> (labels sp)) (finished sp)]>)
  end.

(** Modelled from the spec: [SpanFromHeader] is the session's
    [spanFromHeader(defaultName, headerValue) -> Span]. The span carries the
    decoded trace id and options, and the decoded span id as its
    parent-span-id. *)
Definition SpanFromHeader (tc : Client) (name header : string) : M (option ptr) :=
  let '(tid, parentSpanID, options) := decode header in
  let* id := nextSpanID in
  let* p := allocSpan
    (mkSpan (mkTrace tid options) (mkTraceSpan name id parentSpanID) ∅ false) in
  ret (Some p).


(** ** What gRPC hands to the package *)

(** The stream of the transport behind a wrapper; a call on it returns its
    error result and moves the outside state. *)
Record ClientStream := mkClientStream {
  csContext : Context;
  csCloseSend : T -> option error * T;
  csSendMsg : payload -> T -> option error * T;
  csRecvMsg : T -> option error * T
}.

Record ServerStream := mkServerStream {
  ssContext : Context;
  ssSendMsg : payload -> T -> option error * T;
  ssRecvMsg : T -> option error * T
}.

Definition forward {A} (f : T -> A * T) : M A :=
  outside (fun t => match f t with (a, t1) => (Val a, t1) end).

(** [grpc.UnaryInvoker], [grpc.UnaryHandler] and [grpc.Streamer]: code of
    the outside world. Each sees the context it is given (and, on the client
    side, the outgoing bag found there) and may panic. A streamer returns a
    stream or an error. *)
Definition UnaryInvoker : Type :=
  Context -> option MD -> string -> payload -> T -> Res (option error) * T.

Definition UnaryHandler : Type :=
  Context -> payload -> T -> Res (payload * option error) * T.

Definition Streamer : Type :=
  Context -> option MD -> string -> T -> Res (ClientStream + error) * T.

Definition callInvoker (invoker : UnaryInvoker) (ctx : Context)
    (method : string) (req : payload) : M (option error) :=
  fun w => outside (invoker ctx (outgoingMD ctx w) method req)
             (record (EvInvoke ctx (outgoingMD ctx w)) w).

Definition callHandler (handler : UnaryHandler) (ctx : Context)
    (req : payload) : M (payload * option error) :=
  fun w => outside (handler ctx req) (record (EvHandler ctx) w).

Definition callStreamer (streamer : Streamer) (ctx : Context)
    (method : string) : M (ClientStream + error) :=
  fun w => outside (streamer ctx (outgoingMD ctx w) method)
             (record (EvStreamer ctx (outgoingMD ctx w)) w).

(** The interfaces [grpc.Stream] and [grpc.ClientStream], as far as the
    wrappers add behaviour to them. *)
Class Stream (S : Type) := {
  StreamContext : S -> Context;
  SendMsg : S -> payload -> M (option error);
  RecvMsg : S -> M (option error)
}.

Class ClientStreamOps (S : Type) `{Stream S} := {
  CloseSend : S -> M (option error)
}.

#[export] Instance ClientStream_Stream : Stream ClientStream := {|
  StreamContext := csContext;
  SendMsg s m := forward (csSendMsg s m);
  RecvMsg s := forward (csRecvMsg s)
|}.

#[export] Instance ClientStream_ClientStreamOps : ClientStreamOps ClientStream := {|
  CloseSend s := forward (csCloseSend s)
|}.

#[export] Instance ServerStream_Stream : Stream ServerStream := {|
  StreamContext := ssContext;
  SendMsg s m := forward (ssSendMsg s m);
  RecvMsg s := forward (ssRecvMsg s)
|}.

(** ** Unary client interceptor *)

(** [grpcUnaryInterceptor]. The reply, the connection and the call options
    are handed to the invoker as they come and are left out. *)

Definition grpcUnaryInterceptor (ctx : Context) (method : string)
    (req : payload) (invoker : UnaryInvoker) : M (option error) :=
  let* sp := NewChild (FromContext ctx) method in
  defer (Finish sp)
    (let* ctx :=
       match sp with
       | Some p =>
           let* s := loadSpan p in
           let header :=
             spanHeader (traceID (trace s)) (ParentSpanId (span s))
                        (globalOptions (trace s)) in
           let* md :=
             match FromOutgoingContext ctx with
             | None => Pairs grpcMetadataKey header
             | Some md =>
                 let* md := Copy md in
                 let* _ := assign md grpcMetadataKey [header] in
                 ret md
             end in
           ret (NewOutgoingContext ctx md)
       | None => ret ctx
       end in
     let* err := callInvoker invoker ctx method req in
     let* _ :=
       match err with
       | Some e => SetLabel sp "error" (Error e)
       | None => ret tt
       end in
     ret err).

(** ** Unary server interceptor *)

(** The function [GRPCServerInterceptor(tc)] returns; [info] is not used by
    the source. *)

Definition GRPCServerInterceptor (tc : Client) (ctx : Context) (req : payload)
    (handler : UnaryHandler) : M (payload * option error) :=
  let md := FromIncomingContext ctx in
  let* found := index md grpcMetadataKey in
  match found with
  | Some header =>
      let* sp := SpanFromHeader tc EmptyString (String.concat EmptyString header) in
      defer (Finish sp)
        (let ctx := NewContext ctx sp in
         callHandler handler ctx req)
  | None => callHandler handler ctx req
  end.


(** ** Client stream wrapper *)

(** [Header] and [Trailer] only forward to the stream and are left out. *)

Record ClientStreamWrapper := mkClientStreamWrapper {
  csw_stream : ClientStream;
  csw_span : option ptr
}.

Definition ClientStreamWrapper_CloseSend (s : ClientStreamWrapper) : M (option error) :=
  let* _ :=
    match csw_span s with
    | Some _ => Finish (csw_span s)
    | None => ret tt
    end in
  CloseSend (csw_stream s).

Definition ClientStreamWrapper_Context (s : ClientStreamWrapper) : Context :=
  StreamContext (csw_stream s).

Definition ClientStreamWrapper_SendMsg (s : ClientStreamWrapper) (m : payload)
    : M (option error) :=
  let* err := SendMsg (csw_stream s) m in
  let* _ :=
    match err, csw_span s with
    | Some _, Some _ => Finish (csw_span s)
    | _, _ => ret tt
    end in
  ret err.

Definition ClientStreamWrapper_RecvMsg (s : ClientStreamWrapper) : M (option error) :=
  let* err := RecvMsg (csw_stream s) in
  let* _ :=
    match err, csw_span s with
    | Some _, Some _ => Finish (csw_span s)
    | _, _ => ret tt
    end in
  ret err.

#[export] Instance ClientStreamWrapper_Stream : Stream ClientStreamWrapper := {|
  StreamContext := ClientStreamWrapper_Context;
  SendMsg := ClientStreamWrapper_SendMsg;
  RecvMsg := ClientStreamWrapper_RecvMsg
|}.

#[export] Instance ClientStreamWrapper_ClientStreamOps
    : ClientStreamOps ClientStreamWrapper := {|
  CloseSend := ClientStreamWrapper_CloseSend
|}.

(** ** Streaming client interceptor *)

(** [grpcStreamClientInterceptor]; the stream description, the connection
    and the call options go to the streamer as they come and are left out.
    A nil wrapper is [None]. *)

Definition grpcStreamClientInterceptor (ctx : Context) (method : string)
    (streamer : Streamer) : M (option ClientStreamWrapper * option error) :=
  let* sp := NewChild (FromContext ctx) method in
  let* ctx :=
    match sp with
    | Some p =>
        let* s := loadSpan p in
        let header :=
          spanHeader (traceID (trace s)) (ParentSpanId (span s))
                     (globalOptions (trace s)) in
        let* md :=
          match FromOutgoingContext ctx with
          | None => Pairs grpcMetadataKey header
          | Some md =>
              let* md := Copy md in
              let* _ := assign md grpcMetadataKey [header] in
              ret md
          end in
        ret (NewOutgoingContext ctx md)
    | None => ret ctx
    end in
  let* r := callStreamer streamer ctx method in
  match r with
  | inr err =>
      let* _ := Finish sp in
      ret (None, Some err)
  | inl cs => ret (Some (mkClientStreamWrapper cs sp), None)
  end.

(** ** Server stream wrapper *)

(** [SetHeader], [SendHeader] and [SetTrailer] only forward to the stream
    and are left out, and so are the calls of [log.Printf]. *)

Record ServerStreamWrapper := mkServerStreamWrapper {
  ssw_stream : ServerStream;
  ssw_span : option ptr;
  ssw_context : Context
}.

Definition ServerStreamWrapper_Context (s : ServerStreamWrapper) : Context :=
  ssw_context s.

Definition ServerStreamWrapper_SendMsg (s : ServerStreamWrapper) (m : payload)
    : M (option error) :=
  let* err := SendMsg (ssw_stream s) m in
  let* _ :=
    match err, ssw_span s with
    | Some _, Some _ => Finish (ssw_span s)
    | _, _ => ret tt
    end in
  ret err.

Definition ServerStreamWrapper_RecvMsg (s : ServerStreamWrapper) : M (option error) :=
  let* err := RecvMsg (ssw_stream s) in
  let* _ :=
    match err, ssw_span s with
    | Some _, Some _ => Finish (ssw_span s)
    | _, _ => ret tt
    end in
  ret err.

#[export] Instance ServerStreamWrapper_Stream : Stream ServerStreamWrapper := {|
  StreamContext := ServerStreamWrapper_Context;
  SendMsg := ServerStreamWrapper_SendMsg;
  RecvMsg := ServerStreamWrapper_RecvMsg
|}.

(** ** Code that uses a stream *)

(** A [grpc.StreamHandler], by what it does with the stream it is given:
    it sends, receives and asks for the context, goes on according to what
    it got back, and in the end returns an error result or panics. *)
Inductive StreamHandler :=
| Return (err : option error)
| Abort
| DoSend (m : payload) (k : option error -> StreamHandler)
| DoRecv (k : option error -> StreamHandler)
| DoContext (k : Context -> StreamHandler).

Fixpoint runHandler {S} `{Stream S} (ss : S) (h : StreamHandler) : M (option error) :=
  match h with
  | Return err => ret err
  | Abort => panic
  | DoSend m k => let* err := SendMsg ss m in runHandler ss (k err)
  | DoRecv k => let* err := RecvMsg ss in runHandler ss (k err)
  | DoContext k => runHandler ss (k (StreamContext ss))
  end.

Definition callStreamHandler {S} `{Stream S} (wrapped : bool)
    (handler : StreamHandler) (ss : S) : M (option error) :=
  let* _ := modify (record (EvStreamHandler wrapped (StreamContext ss))) in
  runHandler ss handler.

(** One call of the user of a client stream. *)
Inductive ClientOp :=
| OpCloseSend
| OpSendMsg (m : payload)
| OpRecvMsg.

Definition runClientOp {S} `{ClientStreamOps S} (s : S) (op : ClientOp)
    : M (option error) :=
  match op with
  | OpCloseSend => CloseSend s
  | OpSendMsg m => SendMsg s m
  | OpRecvMsg => RecvMsg s
  end.

(** What the transport does on [op] in outside state [t], and the error
    result it gives. *)
Definition clientCall (cs : ClientStream) (op : ClientOp) (t : T) : option error * T :=
  match op with
  | OpCloseSend => csCloseSend cs t
  | OpSendMsg m => csSendMsg cs m t
  | OpRecvMsg => csRecvMsg cs t
  end.

Definition clientAnswer (cs : ClientStream) (op : ClientOp) (t : T) : option error :=
  fst (clientCall cs op t).

(** [op] is one of the events that finish the span of a client wrapper: a
    half-close, a failed send, a failed receive. *)
Definition clientTrigger (cs : ClientStream) (op : ClientOp) (t : T) : bool :=
  match op with
  | OpCloseSend => true
  | _ => bool_decide (is_Some (clientAnswer cs op t))
  end.

Inductive ServerOp :=
| OpSend (m : payload)
| OpRecv.

Definition runServerOp {S} `{Stream S} (s : S) (op : ServerOp) : M (option error) :=
  match op with
  | OpSend m => SendMsg s m
  | OpRecv => RecvMsg s
  end.

Definition serverCall (ss : ServerStream) (op : ServerOp) (t : T) : option error * T :=
  match op with
  | OpSend m => ssSendMsg ss m t
  | OpRecv => ssRecvMsg ss t
  end.

Definition serverAnswer (ss : ServerStream) (op : ServerOp) (t : T) : option error :=
  fst (serverCall ss op t).

(** [op] is one of the events that finish the span of a server wrapper: a
    failed send, a failed receive. *)
Definition serverTrigger (ss : ServerStream) (op : ServerOp) (t : T) : bool :=
  bool_decide (is_Some (serverAnswer ss op t)).

(** ** Streaming server interceptor *)

(** The function [GRPCStreamServerInterceptor(tc)] returns; [srv] goes to
    the handler as it comes, [info] is not used, the log lines are left
    out. *)

Definition GRPCStreamServerInterceptor (tc : Client) (ss : ServerStream)
    (handler : StreamHandler) : M (option error) :=
  let md := FromIncomingContext (StreamContext ss) in
  let* found := index md grpcMetadataKey in
  match found with
  | Some header =>
      let* sp := SpanFromHeader tc EmptyString (String.concat EmptyString header) in
      defer (Finish sp)
        (let ctx := NewContext (StreamContext ss) sp in
         let ss := mkServerStreamWrapper ss sp ctx in
         callStreamHandler true handler ss)
  | None => callStreamHandler false handler ss
  end.

End Package.

Arguments ClientStream : clear implicits.
Arguments ServerStream : clear implicits.
Arguments UnaryInvoker : clear implicits.
Arguments UnaryHandler : clear implicits.
Arguments Streamer : clear implicits.
Arguments ClientStreamWrapper : clear implicits.
Arguments ServerStreamWrapper : clear implicits.

(** ** Names for the proofs *)

Section Auxiliary.
Context {T : Type}.

(** The header injection both client interceptors perform between deriving
    the child span and calling out (the block under [if span != nil]). *)
Definition injectHeader (sp : option ptr) (ctx : Context) : M T Context :=
  match sp with
  | Some p =>
      let* s := loadSpan p in
      let header :=
        spanHeader (traceID (trace s)) (ParentSpanId (span s))
                   (globalOptions (trace s)) in
      let* md :=
        match FromOutgoingContext ctx with
        | None => Pairs grpcMetadataKey header
        | Some md =>
            let* md := Copy md in
            let* _ := assign md grpcMetadataKey [header] in
            ret md
        end in
      ret (NewOutgoingContext ctx md)
  | None => ret ctx
  end.

(** The bag the header is added to: the caller's, or an empty one. *)
Definition baseBag (ctx : Context) (w : World T) : MD :=
  match ctxOutgoing ctx with
  | Some l => default ∅ (bags w !! l)
  | None => ∅
  end.

(** Every pointer a context holds points into the stores. *)
Definition liveContext (ctx : Context) (w : World T) : Prop :=
  (forall p, ctxSpan ctx = Some p -> is_Some (spans w !! p)) /\
  (forall l, ctxOutgoing ctx = Some l -> is_Some (bags w !! l)) /\
  (forall l, ctxIncoming ctx = Some l -> is_Some (bags w !! l)).

(** The values the incoming bag of [ctx] holds under the trace-header key. *)
Definition incomingHeader (ctx : Context) (w : World T) : option (list string) :=
  match ctxIncoming ctx with
  | Some l => match bags w !! l with
              | Some md => md !! grpcMetadataKey
              | None => None
              end
  | None => None
  end.

(** The identifiers of a span can be put on the wire and read back. *)
Definition validSpan (s : Span) : Prop :=
  valid_triple (traceID (trace s)) (SpanId (span s)) (globalOptions (trace s)).

(** The world after a [Finish] that found [sp] at [q]. *)
Definition finishWorld (q : ptr) (sp : Span) (w : World T) : World T :=
  mkWorld (<[q := mkSpan (trace sp) (span sp) (labels sp) true]> (spans w))
          (bags w)
          (if finished sp then reported w else reported w ++ [q])
          (idSupply w) (transport w) (history w ++ [EvFinish q]).

(** While a stream is in use: [q] is a span of the store with the
    identifiers of [s0]; the reports are [R] as long as [q] is open and [R]
    followed by [q] once it is finished; the history extends [H]. *)
Definition accounted (q : ptr) (s0 : Span) (R : list ptr) (H : list Event)
    (w : World T) : Prop :=
  exists sp tail,
    spans w !! q = Some sp /\
    trace sp = trace s0 /\ span sp = span s0 /\
    reported w = (if finished sp then R ++ [q] else R) /\
    history w = H ++ tail.

End Auxiliary.

(** ** Sample inputs *)

(** An ambient span of trace [abc] with span id 42. *)
Definition sampleSpan : Span :=
  mkSpan (mkTrace "abc" 1) (mkTraceSpan "root" 42 7) ∅ false.

(** A world with that span at address 5 and a caller's bag at address 3. *)
Definition sampleWorld : World N :=
  mkWorld {[ 5%positive := sampleSpan ]}
          {[ 3%positive := {[ "authorization" := ["token"] ]} ]}
          [] 100 0 [].

(** A client context with the ambient span and the caller's bag. *)
Definition sampleCtx : Context := mkContext (Some 5%positive) (Some 3%positive) None 9.

(** A context without span and without metadata. *)
Definition bareCtx : Context := mkContext None None None 9.

Definition failingInvoker : UnaryInvoker N :=
  fun _ _ _ _ t => (Val (Some (mkError 14 "unavailable")), t + 1).

Definition echoHandler : UnaryHandler N :=
  fun _ req t => (Val (req, None), t + 1).

Definition failingStreamer : Streamer N :=
  fun _ _ _ t => (Val (inr (mkError 14 "unavailable")), t).

(** A transport stream on which every send and receive fails. *)
Definition brokenClientStream : ClientStream N :=
  mkClientStream bareCtx
    (fun t => (None, t))
    (fun _ t => (Some (mkError 1 "send failed"), t + 1))
    (fun t => (Some (mkError 2 "recv failed"), t + 1)).

(** A server world whose incoming bag at address 3 splits the trace header
    over two values. *)
Definition serverWorld : World N :=
  mkWorld ∅ {[ 3%positive := {[ grpcMetadataKey := ["abc/4"; "2;o=1"] ]} ]}
          [] 100 0 [].

Definition serverCtx : Context := mkContext None None (Some 3%positive) 9.

Definition brokenServerStream : ServerStream N :=
  mkServerStream serverCtx
    (fun _ t => (Some (mkError 1 "send failed"), t + 1))
    (fun t => (Some (mkError 2 "recv failed"), t + 1)).

(** A handler that sends once and returns what the send returned. *)
Definition sendOnce : StreamHandler := DoSend "hello" Return.

(** A client wrapper around the broken stream, bound to the sample span. *)
Definition brokenWrapper : ClientStreamWrapper N :=
  mkClientStreamWrapper brokenClientStream (Some 5%positive).

(** ** Sequences of calls on a stream *)

Section Sequences.
Context {T : Type}.

(** The user of a client stream makes the calls [ops] one after the other;
    the result lists what each call returned. *)
Fixpoint runClientOps {S} `{ClientStreamOps T S} (s : S) (ops : list ClientOp)
    : M T (list (option error)) :=
  match ops with
  | [] => ret []
  | op :: rest =>
      let* e := runClientOp s op in
      let* es := runClientOps s rest in
      ret (e :: es)
  end.

Fixpoint runServerOps {S} `{Stream T S} (s : S) (ops : list ServerOp)
    : M T (list (option error)) :=
  match ops with
  | [] => ret []
  | op :: rest =>
      let* e := runServerOp s op in
      let* es := runServerOps s rest in
      ret (e :: es)
  end.

(** A call and what it returned, taken together, is one of the events on
    which the client wrapper calls [Finish]: any [CloseSend], and a
    [SendMsg] or [RecvMsg] that returned an error. *)
Definition finishing (op : ClientOp) (e : option error) : bool :=
  match op, e with
  | OpCloseSend, _ => true
  | _, Some _ => true
  | _, None => false
  end.

(** How many of the calls [ops], which returned [es], were such events. *)
Fixpoint finishingCalls (ops : list ClientOp) (es : list (option error)) : nat :=
  match ops, es with
  | op :: ops', e :: es' =>
      (if finishing op e then 1 else 0)%nat + finishingCalls ops' es'
  | _, _ => 0%nat
  end.

(** How many of the results [es] are errors. *)
Fixpoint failures (es : list (option error)) : nat :=
  match es with
  | [] => 0%nat
  | Some _ :: es' => S (failures es')
  | None :: es' => failures es'
  end.

(** The stream [ss] with another context. *)
Definition withContext (ss : ServerStream T) (ctx : Context) : ServerStream T :=
  mkServerStream ctx (ssSendMsg ss) (ssRecvMsg ss).

End Sequences.

(** ** More sample inputs *)

(** A transport stream on which everything succeeds. *)
Definition healthyClientStream : ClientStream N :=
  mkClientStream bareCtx
    (fun t => (None, t + 1))
    (fun _ t => (None, t + 1))
    (fun t => (None, t + 1)).

(** A transport stream whose receive side reports the end of the stream
    from the third call on. *)
Definition endingClientStream : ClientStream N :=
  mkClientStream bareCtx
    (fun t => (None, t + 1))
    (fun _ t => (None, t + 1))
    (fun t => (if 2 <=? t then Some (mkError 0 "EOF") else None, t + 1)).

Definition healthyStreamer : Streamer N :=
  fun _ _ _ t => (Val (inl endingClientStream), t + 1).

Definition panickingStreamer : Streamer N :=
  fun _ _ _ t => (Panic, t).

Definition panickingInvoker : UnaryInvoker N :=
  fun _ _ _ _ t => (Panic, t).

Definition panickingHandler : UnaryHandler N :=
  fun _ _ t => (Panic, t + 1).

(** A client context with the ambient span and no outgoing bag. *)
Definition spanOnlyCtx : Context := mkContext (Some 5%positive) None None 9.

(** A server stream without incoming metadata. *)
Definition plainServerStream : ServerStream N :=
  mkServerStream bareCtx
    (fun _ t => (None, t + 1))
    (fun t => (if 1 <=? t then Some (mkError 0 "EOF") else None, t + 1)).

(** A server stream with the trace header whose second receive fails. *)
Definition tracedServerStream : ServerStream N :=
  mkServerStream serverCtx
    (fun _ t => (None, t + 1))
    (fun t => (if 1 <=? t then Some (mkError 0 "EOF") else None, t + 1)).

(** A handler that receives until a receive fails, at most three times,
    answers each message, and returns no error. *)
Definition echoLoop : StreamHandler :=
  DoRecv (fun e1 => match e1 with
    | Some _ => Return None
    | None => DoSend "one" (fun _ => DoRecv (fun e2 => match e2 with
        | Some _ => Return None
        | None => DoSend "two" (fun _ => DoRecv (fun _ => Return None))
        end))
    end).

(** The sample span as the span of a wrapper, and wrappers without span. *)
Definition endingWrapper : ClientStreamWrapper N :=
  mkClientStreamWrapper endingClientStream (Some 5%positive).

Definition spanlessWrapper : ClientStreamWrapper N :=
  mkClientStreamWrapper brokenClientStream None.

Definition serverWrapper : ServerStreamWrapper N :=
  mkServerStreamWrapper tracedServerStream (Some 5%positive) sampleCtx.

(** The wrapper [healthyStreamer] gives rise to in [sampleWorld]. *)
Definition establishedWrapper : ClientStreamWrapper N :=
  mkClientStreamWrapper endingClientStream (Some 6%positive).

(** * Properties *)

(** ** Header codec *)

Lemma cut_append c x y :
  occurs c x = false -> cut c (x +:+ String c y) = Some (x, y).
Proof.
  induction x as [|a x IH]; simpl.
  - intros _. by rewrite Ascii.eqb_refl.
  - intros H. apply orb_false_iff in H as [Ha Hx].
    rewrite Ha, (IH Hx). done.
Qed.

Lemma cut_absent c s : occurs c s = false -> cut c s = None.
Proof.
  induction s as [|a s IH]; simpl; [done|].
  intros H. apply orb_false_iff in H as [Ha Hs].
  by rewrite Ha, (IH Hs).
Qed.

Lemma string_of_uint_digits d : all_digits (NilEmpty.string_of_uint d) = true.
Proof. induction d; simpl; auto. Qed.

Lemma digits_no_occurrence c s :
  is_digit c = false -> all_digits s = true -> occurs c s = false.
Proof.
  intros Hc. induction s as [|a s IH]; simpl; [done|].
  intros H. apply andb_true_iff in H as [Ha Hs].
  rewrite (IH Hs), orb_false_r.
  destruct (Ascii.eqb_spec a c) as [->|]; [congruence|done].
Qed.

Lemma formatUint_nonempty n : formatUint n <> EmptyString.
Proof.
  unfold formatUint. destruct n as [|p]; [done|].
  simpl. pose proof (DecimalPos.Unsigned.to_uint_nonnil p) as Hp.
  destruct (Pos.to_uint p); done.
Qed.

Lemma parseUint_formatUint n : n <= uint64_max -> parseUint (formatUint n) = Some n.
Proof.
  intros Hn. unfold parseUint.
  pose proof (formatUint_nonempty n) as Hne.
  destruct (formatUint n) eqn:E; [done|]. rewrite <- E. clear E Hne.
  unfold formatUint. rewrite NilEmpty.usu. cbv zeta.
  rewrite DecimalN.Unsigned.of_to.
  apply N.leb_le in Hn. by rewrite Hn.
Qed.

Lemma decode_spanHeader t s o :
  valid_triple t s o -> decode (spanHeader t s o) = (t, s, o).
Proof.
  intros (Ht & Hs & Ho). unfold decode, spanHeader.
  change ("/" +:+ ?r) with (String "/" r).
  rewrite (cut_append _ _ _ Ht). cbv beta iota zeta.
  change (";o=" +:+ ?r) with (String ";" (String "o" (String "=" r))).
  rewrite cut_append by
    (apply digits_no_occurrence; [done | apply string_of_uint_digits]).
  cbv beta iota zeta. by rewrite !parseUint_formatUint.
Qed.

Example spanHeader_format : spanHeader "abc" 42 1 = "abc/42;o=1".
Proof. reflexivity. Qed.

Example decode_wellformed : decode "abc/42;o=1" = ("abc", 42, 1).
Proof. reflexivity. Qed.

(** Fields that are missing or malformed read as zero. *)
Example decode_malformed :
  decode "abc/4x;o=" = ("abc", 0, 0) /\
  decode "abc" = ("abc", 0, 0) /\
  decode "abc/18446744073709551616;o=1" = ("abc", 0, 1).
Proof. repeat split; reflexivity. Qed.

(** A trace id with a slash in it does not survive the round trip. *)
Example decode_spanHeader_slash : decode (spanHeader "a/b" 1 1) = ("a", 0, 1).
Proof. reflexivity. Qed.

(** ** Steps of the span and metadata operations *)

Section Steps.
Context {T : Type}.
Implicit Types (w : World T) (p c l : ptr) (s : Span) (ctx : Context).

Lemma fresh_span w : spans w !! fresh (dom (spans w)) = None.
Proof. apply not_elem_of_dom, is_fresh. Qed.

Lemma fresh_bag w : bags w !! fresh (dom (bags w)) = None.
Proof. apply not_elem_of_dom, is_fresh. Qed.

Lemma loadSpan_live w p s : spans w !! p = Some s -> loadSpan p w = (Val s, w).
Proof. unfold loadSpan. by intros ->. Qed.

Lemma loadBag_live w l (md : MD) : bags w !! l = Some md -> loadBag l w = (Val md, w).
Proof. unfold loadBag. by intros ->. Qed.

Lemma NewChild_live w p s name :
  spans w !! p = Some s ->
  NewChild (Some p) name w =
    (Val (Some (fresh (dom (spans w)))),
     mkWorld (<[fresh (dom (spans w)) :=
                 mkSpan (trace s) (mkTraceSpan name (idSupply w) (SpanId (span s))) ∅ false]>
                (spans w))
             (bags w) (reported w) ((idSupply w + 1) mod 2 ^ 64)
             (transport w) (history w)).
Proof.
  intros Hp. unfold NewChild, bind. by rewrite (loadSpan_live _ _ _ Hp).
Qed.

Lemma Finish_open w p s :
  spans w !! p = Some s -> finished s = false ->
  Finish (Some p) w =
    (Val tt,
     mkWorld (<[p := mkSpan (trace s) (span s) (labels s) true]> (spans w))
             (bags w) (reported w ++ [p]) (idSupply w) (transport w)
             (history w ++ [EvFinish p])).
Proof.
  intros Hp Hf. unfold Finish, bind. rewrite (loadSpan_live _ _ _ Hp).
  cbn. by rewrite Hf.
Qed.

Lemma Finish_closed w p s :
  spans w !! p = Some s -> finished s = true ->
  Finish (Some p) w =
    (Val tt,
     mkWorld (spans w) (bags w) (reported w) (idSupply w) (transport w)
             (history w ++ [EvFinish p])).
Proof.
  intros Hp Hf. unfold Finish, bind. rewrite (loadSpan_live _ _ _ Hp).
  cbn. by rewrite Hf.
Qed.

Lemma SetLabel_live w p s k v :
  spans w !! p = Some s ->
  SetLabel (Some p) k v w =
    (Val tt,
     mkWorld (<[p := mkSpan (trace s) (span s) (<[k := v]> (labels s)) (finished s)]>
                (spans w))
             (bags w) (reported w) (idSupply w) (transport w) (history w)).
Proof.
  intros Hp. unfold SetLabel, bind. by rewrite (loadSpan_live _ _ _ Hp).
Qed.

Lemma injectHeader_live w c s ctx :
  spans w !! c = Some s ->
  (forall l, ctxOutgoing ctx = Some l -> is_Some (bags w !! l)) ->
  injectHeader (Some c) ctx w =
    (Val (NewOutgoingContext ctx (fresh (dom (bags w)))),
     mkWorld (spans w)
             (<[fresh (dom (bags w)) :=
                 <[grpcMetadataKey :=
                    [spanHeader (traceID (trace s)) (ParentSpanId (span s))
                                (globalOptions (trace s))]]> (baseBag ctx w)]>
                (bags w))
             (reported w) (idSupply w) (transport w) (history w)).
Proof.
  intros Hc Hout. unfold injectHeader, bind, baseBag, FromOutgoingContext.
  rewrite (loadSpan_live _ _ _ Hc).
  destruct (ctxOutgoing ctx) as [l|] eqn:El.
  - destruct (Hout l eq_refl) as [md Hmd]. rewrite Hmd.
    unfold Copy, assign, bind. rewrite (loadBag_live _ _ _ Hmd).
    unfold allocBag, loadBag, modify, ret, set_bags. cbn.
    rewrite lookup_insert_eq. cbn. by rewrite insert_insert_eq.
  - unfold Pairs, allocBag, ret, set_bags. by rewrite insert_empty.
Qed.

End Steps.

(** ** The unary client interceptor, step by step *)

Section UnaryClient.
Context {T : Type}.
Implicit Types (w : World T) (p c l : ptr) (ctx : Context).

Lemma callInvoker_step w (inv : UnaryInvoker T) ctx method req r t' :
  inv ctx (outgoingMD ctx w) method req (transport w) = (r, t') ->
  callInvoker inv ctx method req w =
    (r, mkWorld (spans w) (bags w) (reported w) (idSupply w) t'
                (history w ++ [EvInvoke ctx (outgoingMD ctx w)])).
Proof. intros H. unfold callInvoker, outside. cbn. by rewrite H. Qed.

Lemma grpcUnaryInterceptor_unfold ctx method req (inv : UnaryInvoker T) :
  grpcUnaryInterceptor ctx method req inv =
    (let* sp := NewChild (FromContext ctx) method in
     defer (Finish sp)
       (let* ctx := injectHeader sp ctx in
        let* err := callInvoker inv ctx method req in
        let* _ := match err with
                  | Some e => SetLabel sp "error" (Error e)
                  | None => ret tt
                  end in
        ret err)).
Proof. reflexivity. Qed.

(** Without an ambient span the interceptor is the call itself. *)
Lemma unary_untraced w ctx method req (inv : UnaryInvoker T) :
  FromContext ctx = None ->
  grpcUnaryInterceptor ctx method req inv w = callInvoker inv ctx method req w.
Proof.
  intros Hctx. rewrite grpcUnaryInterceptor_unfold, Hctx.
  unfold NewChild, injectHeader, bind, defer, ret, Finish.
  destruct (callInvoker inv ctx method req w) as [[[e|]|] w1]; reflexivity.
Qed.

(** With an ambient span [S] at [p]: the whole effect of one call. *)
Lemma unary_traced w ctx method req (inv : UnaryInvoker T) p S r t' :
  FromContext ctx = Some p ->
  spans w !! p = Some S ->
  (forall l, ctxOutgoing ctx = Some l -> is_Some (bags w !! l)) ->
  let c := fresh (dom (spans w)) in
  let l' := fresh (dom (bags w)) in
  let md' := <[grpcMetadataKey :=
                [spanHeader (traceID (trace S)) (SpanId (span S))
                            (globalOptions (trace S))]]> (baseBag ctx w) in
  let ctx' := NewOutgoingContext ctx l' in
  inv ctx' (Some md') method req (transport w) = (r, t') ->
  grpcUnaryInterceptor ctx method req inv w =
    (r, mkWorld
          (<[c := mkSpan (trace S) (mkTraceSpan method (idSupply w) (SpanId (span S)))
                    (match r with
                     | Val (Some e) => <["error" := Error e]> ∅
                     | _ => ∅
                     end) true]> (spans w))
          (<[l' := md']> (bags w)) (reported w ++ [c])
          ((idSupply w + 1) mod 2 ^ 64) t'
          (history w ++ [EvInvoke ctx' (Some md'); EvFinish c])).
Proof.
  intros Hctx Hp Hout c l' md' ctx' Hinv.
  rewrite grpcUnaryInterceptor_unfold, Hctx.
  unfold bind at 1. rewrite (NewChild_live _ _ _ _ Hp). fold c.
  unfold defer, bind at 1.
  erewrite injectHeader_live; [|by apply lookup_insert_eq|exact Hout].
  cbn [bags spans reported idSupply transport history trace span
       ParentSpanId traceID globalOptions].
  fold l'. change (baseBag ctx _) with (baseBag ctx w). fold md'. fold ctx'.
  unfold bind at 1. erewrite callInvoker_step; last first.
  { unfold outgoingMD. cbn. rewrite lookup_insert_eq. exact Hinv. }
  unfold outgoingMD. cbn [ctx' NewOutgoingContext ctxOutgoing bags].
  rewrite lookup_insert_eq.
  cbn [bags spans reported idSupply transport history].
  destruct r as [[e|]|].
  - unfold bind. erewrite SetLabel_live by apply lookup_insert_eq.
    cbn [bags spans reported idSupply transport history trace span labels finished].
    unfold ret. erewrite Finish_open; [|by apply lookup_insert_eq|done].
    cbn [bags spans reported idSupply transport history trace span labels finished].
    by rewrite !insert_insert_eq, <- app_assoc.
  - unfold bind, ret. erewrite Finish_open; [|by apply lookup_insert_eq|done].
    cbn [bags spans reported idSupply transport history trace span labels finished].
    by rewrite !insert_insert_eq, <- app_assoc.
  - erewrite Finish_open; [|by apply lookup_insert_eq|done].
    cbn [bags spans reported idSupply transport history trace span labels finished].
    by rewrite !insert_insert_eq, <- app_assoc.
Qed.

End UnaryClient.

(** ** The streaming client interceptor, step by step *)

Section StreamClient.
Context {T : Type}.
Implicit Types (w : World T) (p c l : ptr) (ctx : Context).

Lemma callStreamer_step w (streamer : Streamer T) ctx method r t' :
  streamer ctx (outgoingMD ctx w) method (transport w) = (r, t') ->
  callStreamer streamer ctx method w =
    (r, mkWorld (spans w) (bags w) (reported w) (idSupply w) t'
                (history w ++ [EvStreamer ctx (outgoingMD ctx w)])).
Proof. intros H. unfold callStreamer, outside. cbn. by rewrite H. Qed.

Lemma grpcStreamClientInterceptor_unfold ctx method (streamer : Streamer T) :
  grpcStreamClientInterceptor ctx method streamer =
    (let* sp := NewChild (FromContext ctx) method in
     let* ctx := injectHeader sp ctx in
     let* r := callStreamer streamer ctx method in
     match r with
     | inr err => let* _ := Finish sp in ret (None, Some err)
     | inl cs => ret (Some (mkClientStreamWrapper cs sp), None)
     end).
Proof. reflexivity. Qed.

(** With an ambient span [S] at [p]: the whole effect of establishing a
    stream, for each of the three ways the streamer can come back. *)
Lemma stream_traced w ctx method (streamer : Streamer T) p S r t' :
  FromContext ctx = Some p ->
  spans w !! p = Some S ->
  (forall l, ctxOutgoing ctx = Some l -> is_Some (bags w !! l)) ->
  let c := fresh (dom (spans w)) in
  let l' := fresh (dom (bags w)) in
  let md' := <[grpcMetadataKey :=
                [spanHeader (traceID (trace S)) (SpanId (span S))
                            (globalOptions (trace S))]]> (baseBag ctx w) in
  let ctx' := NewOutgoingContext ctx l' in
  let child := mkSpan (trace S) (mkTraceSpan method (idSupply w) (SpanId (span S))) ∅ in
  streamer ctx' (Some md') method (transport w) = (r, t') ->
  grpcStreamClientInterceptor ctx method streamer w =
    match r with
    | Val (inr err) =>
        (Val (None, Some err),
         mkWorld (<[c := child true]> (spans w)) (<[l' := md']> (bags w))
                 (reported w ++ [c]) ((idSupply w + 1) mod 2 ^ 64) t'
                 (history w ++ [EvStreamer ctx' (Some md'); EvFinish c]))
    | Val (inl cs) =>
        (Val (Some (mkClientStreamWrapper cs (Some c)), None),
         mkWorld (<[c := child false]> (spans w)) (<[l' := md']> (bags w))
                 (reported w) ((idSupply w + 1) mod 2 ^ 64) t'
                 (history w ++ [EvStreamer ctx' (Some md')]))
    | Panic =>
        (Panic,
         mkWorld (<[c := child false]> (spans w)) (<[l' := md']> (bags w))
                 (reported w) ((idSupply w + 1) mod 2 ^ 64) t'
                 (history w ++ [EvStreamer ctx' (Some md')]))
    end.
Proof.
  intros Hctx Hp Hout c l' md' ctx' child Hs.
  rewrite grpcStreamClientInterceptor_unfold, Hctx.
  unfold bind at 1. rewrite (NewChild_live _ _ _ _ Hp). fold c.
  unfold bind at 1.
  erewrite injectHeader_live; [|by apply lookup_insert_eq|exact Hout].
  cbn [bags spans reported idSupply transport history trace span
       ParentSpanId traceID globalOptions].
  fold l'. change (baseBag ctx _) with (baseBag ctx w). fold md'. fold ctx'.
  unfold bind at 1. erewrite callStreamer_step; last first.
  { unfold outgoingMD. cbn. rewrite lookup_insert_eq. exact Hs. }
  unfold outgoingMD. cbn [ctx' NewOutgoingContext ctxOutgoing bags].
  rewrite lookup_insert_eq.
  cbn [bags spans reported idSupply transport history].
  destruct r as [[cs|err]|]; [reflexivity| |reflexivity].
  unfold bind, ret. erewrite Finish_open; [|by apply lookup_insert_eq|done].
  cbn [bags spans reported idSupply transport history trace span labels finished].
  by rewrite !insert_insert_eq, <- app_assoc.
Qed.

End StreamClient.

(** ** Reconstruction of a span from a header *)

Section FromHeader.
Context {T : Type}.
Implicit Types (w : World T).

Lemma SpanFromHeader_step tc name h w tid parent opts :
  decode h = (tid, parent, opts) ->
  SpanFromHeader tc name h w =
    (Val (Some (fresh (dom (spans w)))),
     mkWorld (<[fresh (dom (spans w)) :=
                 mkSpan (mkTrace tid opts) (mkTraceSpan name (idSupply w) parent) ∅ false]>
                (spans w))
             (bags w) (reported w) ((idSupply w + 1) mod 2 ^ 64)
             (transport w) (history w)).
Proof. intros E. unfold SpanFromHeader. by rewrite E. Qed.

Lemma SpanFromHeader_parent tc name w t s o :
  valid_triple t s o ->
  exists q sp,
    fst (SpanFromHeader tc name (spanHeader t s o) w) = Val (Some q) /\
    spans (snd (SpanFromHeader tc name (spanHeader t s o) w)) !! q = Some sp /\
    ParentSpanId (span sp) = s.
Proof.
  intros Hv. rewrite (SpanFromHeader_step _ _ _ _ _ _ _ (decode_spanHeader _ _ _ Hv)).
  eexists _, _. cbn. split; [done|]. split; [apply lookup_insert_eq|done].
Qed.

End FromHeader.

(** ** Client side *)

Section ClientClaims.
Context {T : Type}.
Implicit Types (w : World T) (p c l : ptr) (ctx : Context).

(** C5: decoding the header that [spanHeader] produces for a valid triple
    (a trace id without a slash, a span id and options that fit in 64 bits)
    gives back the triple. *)
Theorem decode_encode_roundtrip traceID spanID options :
  valid_triple traceID spanID options ->
  decode (spanHeader traceID spanID options) = (traceID, spanID, options).
Proof. apply decode_spanHeader. Qed.

(** C3: on a unary client call with an ambient span [S], the invoker is
    called once, the bag found on the context it is given holds exactly one
    value under the trace-header key, and that value decodes to the
    identifiers of [S]: a span reconstructed from it has the span id of [S]
    as its parent-span-id. *)
Theorem unary_client_header_names_parent w ctx method req (inv : UnaryInvoker T) p S :
  FromContext ctx = Some p ->
  spans w !! p = Some S ->
  validSpan S ->
  liveContext ctx w ->
  exists ctx' md h c,
    history (snd (grpcUnaryInterceptor ctx method req inv w)) =
      history w ++ [EvInvoke ctx' (Some md); EvFinish c] /\
    md !! grpcMetadataKey = Some [h] /\
    decode h = (traceID (trace S), SpanId (span S), globalOptions (trace S)) /\
    forall tc name (w0 : World T), exists q sp,
      fst (SpanFromHeader tc name h w0) = Val (Some q) /\
      spans (snd (SpanFromHeader tc name h w0)) !! q = Some sp /\
      ParentSpanId (span sp) = SpanId (span S).
Proof.
  intros Hctx Hp Hv (_ & Hout & _).
  destruct (inv (NewOutgoingContext ctx (fresh (dom (bags w))))
              (Some (<[grpcMetadataKey :=
                        [spanHeader (traceID (trace S)) (SpanId (span S))
                                    (globalOptions (trace S))]]> (baseBag ctx w)))
              method req (transport w)) as [r t'] eqn:E.
  rewrite (unary_traced _ _ _ _ _ _ _ _ _ Hctx Hp Hout E).
  eexists _, _, _, _. cbn [snd history]. split; [reflexivity|].
  split; [apply lookup_insert_eq|]. split.
  - by apply decode_spanHeader.
  - intros tc name w0. by apply SpanFromHeader_parent.
Qed.

(** C7: on a unary client call without ambient span the interceptor calls
    the invoker once, with the context it was given; the stores of bags and
    spans and the reports are as before, and what the invoker returns is
    what the interceptor returns. *)
Theorem unary_client_without_span_passes_through w ctx method req (inv : UnaryInvoker T) :
  FromContext ctx = None ->
  fst (grpcUnaryInterceptor ctx method req inv w) =
    fst (inv ctx (outgoingMD ctx w) method req (transport w)) /\
  history (snd (grpcUnaryInterceptor ctx method req inv w)) =
    history w ++ [EvInvoke ctx (outgoingMD ctx w)] /\
  bags (snd (grpcUnaryInterceptor ctx method req inv w)) = bags w /\
  spans (snd (grpcUnaryInterceptor ctx method req inv w)) = spans w /\
  reported (snd (grpcUnaryInterceptor ctx method req inv w)) = reported w.
Proof.
  intros Hctx. rewrite (unary_untraced _ _ _ _ _ Hctx).
  destruct (inv ctx (outgoingMD ctx w) method req (transport w)) as [r t'] eqn:E.
  by rewrite (callInvoker_step _ _ _ _ _ _ _ E).
Qed.

(** C8: on a unary client call with an ambient span [S] the interceptor
    derives a child [c] of [S] named after the method. When the invoker
    returns an error [e], the interceptor returns [e] and the child carries
    the label ["error"] with the message of [e]; when the invoker returns no
    error, the interceptor returns none and the child has no ["error"]
    label. *)
Theorem unary_client_labels_error w ctx method req (inv : UnaryInvoker T) p S :
  FromContext ctx = Some p ->
  spans w !! p = Some S ->
  liveContext ctx w ->
  exists ctx' md c child,
    spans w !! c = None /\
    spans (snd (grpcUnaryInterceptor ctx method req inv w)) !! c = Some child /\
    Name (span child) = method /\
    ParentSpanId (span child) = SpanId (span S) /\
    history (snd (grpcUnaryInterceptor ctx method req inv w)) =
      history w ++ [EvInvoke ctx' md; EvFinish c] /\
    (forall e, fst (inv ctx' md method req (transport w)) = Val (Some e) ->
       fst (grpcUnaryInterceptor ctx method req inv w) = Val (Some e) /\
       labels child !! "error" = Some (Error e)) /\
    (fst (inv ctx' md method req (transport w)) = Val None ->
       fst (grpcUnaryInterceptor ctx method req inv w) = Val None /\
       labels child !! "error" = None).
Proof.
  intros Hctx Hp (_ & Hout & _).
  destruct (inv (NewOutgoingContext ctx (fresh (dom (bags w))))
              (Some (<[grpcMetadataKey :=
                        [spanHeader (traceID (trace S)) (SpanId (span S))
                                    (globalOptions (trace S))]]> (baseBag ctx w)))
              method req (transport w)) as [r t'] eqn:E.
  rewrite (unary_traced _ _ _ _ _ _ _ _ _ Hctx Hp Hout E).
  eexists _, _, _, _. cbn [fst snd spans history].
  split; [apply fresh_span|]. split; [apply lookup_insert_eq|].
  cbn [span Name ParentSpanId labels]. rewrite E. cbn [fst].
  split; [done|]. split; [done|]. split; [done|]. split.
  - intros e ->. split; [done|]. apply lookup_insert_eq.
  - by intros ->.
Qed.

End ClientClaims.

Section ClientStreamClaims.
Context {T : Type}.
Implicit Types (w : World T) (p c l : ptr) (ctx : Context).

Lemma stream_untraced w ctx method (streamer : Streamer T) r t' :
  FromContext ctx = None ->
  streamer ctx (outgoingMD ctx w) method (transport w) = (r, t') ->
  grpcStreamClientInterceptor ctx method streamer w =
    (match r with
     | Val (inr err) => Val (None, Some err)
     | Val (inl cs) => Val (Some (mkClientStreamWrapper cs None), None)
     | Panic => Panic
     end,
     mkWorld (spans w) (bags w) (reported w) (idSupply w) t'
             (history w ++ [EvStreamer ctx (outgoingMD ctx w)])).
Proof.
  intros Hctx Hs. rewrite grpcStreamClientInterceptor_unfold, Hctx.
  unfold NewChild, injectHeader, bind, ret.
  rewrite (callStreamer_step _ _ _ _ _ _ Hs).
  by destruct r as [[cs|err]|].
Qed.

(** C4: on a unary or streaming client call with an ambient span and a
    caller's bag [md0] at [l] on the context, the bag at [l] is [md0] after
    the call as before; the context handed on is the caller's with a bag at
    another, new address [l'] installed, and that bag is [md0] with the
    trace-header key set. *)
Theorem client_interceptors_leave_caller_bag w ctx method req
    (inv : UnaryInvoker T) (streamer : Streamer T) p S l md0 :
  FromContext ctx = Some p ->
  spans w !! p = Some S ->
  FromOutgoingContext ctx = Some l ->
  bags w !! l = Some md0 ->
  exists l' h,
    l' <> l /\ bags w !! l' = None /\
    (bags (snd (grpcUnaryInterceptor ctx method req inv w)) !! l = Some md0 /\
     bags (snd (grpcUnaryInterceptor ctx method req inv w)) !! l' =
       Some (<[grpcMetadataKey := [h]]> md0) /\
     exists c,
       history (snd (grpcUnaryInterceptor ctx method req inv w)) =
         history w ++ [EvInvoke (NewOutgoingContext ctx l')
                         (Some (<[grpcMetadataKey := [h]]> md0));
                       EvFinish c]) /\
    (bags (snd (grpcStreamClientInterceptor ctx method streamer w)) !! l = Some md0 /\
     bags (snd (grpcStreamClientInterceptor ctx method streamer w)) !! l' =
       Some (<[grpcMetadataKey := [h]]> md0) /\
     exists tail,
       history (snd (grpcStreamClientInterceptor ctx method streamer w)) =
         history w ++ EvStreamer (NewOutgoingContext ctx l')
                        (Some (<[grpcMetadataKey := [h]]> md0)) :: tail).
Proof.
  intros Hctx Hp Hl Hmd. unfold FromOutgoingContext in Hl.
  assert (Hout : forall l0, ctxOutgoing ctx = Some l0 -> is_Some (bags w !! l0)).
  { intros l0 H0. rewrite Hl in H0. injection H0 as <-. by eexists. }
  assert (Hbase : baseBag ctx w = md0) by (unfold baseBag; by rewrite Hl, Hmd).
  assert (Hne : fresh (dom (bags w)) <> l).
  { intros E. pose proof (fresh_bag w) as Hf. rewrite E, Hmd in Hf. done. }
  exists (fresh (dom (bags w))),
    (spanHeader (traceID (trace S)) (SpanId (span S)) (globalOptions (trace S))).
  split; [exact Hne|]. split; [apply fresh_bag|]. split.
  - destruct (inv (NewOutgoingContext ctx (fresh (dom (bags w))))
                (Some (<[grpcMetadataKey :=
                          [spanHeader (traceID (trace S)) (SpanId (span S))
                                      (globalOptions (trace S))]]> (baseBag ctx w)))
                method req (transport w)) as [r t'] eqn:E.
    rewrite (unary_traced _ _ _ _ _ _ _ _ _ Hctx Hp Hout E), Hbase.
    cbn [snd bags history].
    split; [by rewrite lookup_insert_ne|].
    split; [apply lookup_insert_eq|]. by eexists.
  - destruct (streamer (NewOutgoingContext ctx (fresh (dom (bags w))))
                (Some (<[grpcMetadataKey :=
                          [spanHeader (traceID (trace S)) (SpanId (span S))
                                      (globalOptions (trace S))]]> (baseBag ctx w)))
                method (transport w)) as [r t'] eqn:E.
    rewrite (stream_traced _ _ _ _ _ _ _ _ Hctx Hp Hout E), Hbase.
    destruct r as [[cs|err]|]; cbn [snd bags history];
      (split; [by rewrite lookup_insert_ne|]);
      (split; [apply lookup_insert_eq|]); by eexists.
Qed.

(** C6: the streaming client interceptor calls the streamer once; when the
    streamer returns an error [e], the interceptor returns no wrapper and
    [e]; and if the context carries an ambient span [S], the child derived
    from [S] is finished by then: the one [Finish] on it follows the call of
    the streamer, and it is reported once. *)
Theorem stream_client_failure_finishes_span w ctx method (streamer : Streamer T) :
  liveContext ctx w ->
  exists ctx' md,
    (exists tail,
       history (snd (grpcStreamClientInterceptor ctx method streamer w)) =
         history w ++ EvStreamer ctx' md :: tail) /\
    forall e, fst (streamer ctx' md method (transport w)) = Val (inr e) ->
      fst (grpcStreamClientInterceptor ctx method streamer w) = Val (None, Some e) /\
      forall p S, FromContext ctx = Some p -> spans w !! p = Some S ->
        exists c child,
          spans w !! c = None /\
          spans (snd (grpcStreamClientInterceptor ctx method streamer w)) !! c
            = Some child /\
          Name (span child) = method /\
          ParentSpanId (span child) = SpanId (span S) /\
          finished child = true /\
          history (snd (grpcStreamClientInterceptor ctx method streamer w)) =
            history w ++ [EvStreamer ctx' md; EvFinish c] /\
          reported (snd (grpcStreamClientInterceptor ctx method streamer w)) =
            reported w ++ [c].
Proof.
  intros (Hsp & Hout & _).
  destruct (FromContext ctx) as [p|] eqn:Hctx.
  - destruct (Hsp p Hctx) as [S Hp].
    destruct (streamer (NewOutgoingContext ctx (fresh (dom (bags w))))
                (Some (<[grpcMetadataKey :=
                          [spanHeader (traceID (trace S)) (SpanId (span S))
                                      (globalOptions (trace S))]]> (baseBag ctx w)))
                method (transport w)) as [r t'] eqn:E.
    eexists _, _. rewrite (stream_traced _ _ _ _ _ _ _ _ Hctx Hp Hout E), E.
    split.
    + destruct r as [[cs|err]|]; cbn [snd history]; by eexists.
    + cbn [fst]. intros e ->. cbn [fst snd spans history reported].
      split; [done|].
      intros p0 S0 [= <-] Hp0. rewrite Hp in Hp0. injection Hp0 as <-.
      eexists _, _. split; [apply fresh_span|].
      split; [apply lookup_insert_eq|]. done.
  - exists ctx, (outgoingMD ctx w).
    destruct (streamer ctx (outgoingMD ctx w) method (transport w)) as [r t'] eqn:E.
    rewrite (stream_untraced _ _ _ _ _ _ Hctx E). cbn [fst snd history].
    split; [by eexists|].
    intros e ->. split; [done|]. intros p S Hcon. done.
Qed.

End ClientStreamClaims.

(** ** Finishing, and the stream wrappers *)

Section Wrappers.
Context {T : Type}.
Implicit Types (w : World T) (p q : ptr) (ctx : Context).

Lemma Finish_step w q sp :
  spans w !! q = Some sp -> Finish (Some q) w = (Val tt, finishWorld q sp w).
Proof.
  intros Hq. unfold finishWorld. destruct (finished sp) eqn:Hf.
  - rewrite (Finish_closed _ _ _ Hq Hf). do 2 f_equal.
    symmetry. apply insert_id. rewrite Hq. f_equal.
    destruct sp; cbn in *; by subst.
  - by rewrite (Finish_open _ _ _ Hq Hf).
Qed.

Lemma forward_step {A} (f : T -> A * T) w :
  forward f w = (Val (fst (f (transport w))), set_transport (snd (f (transport w))) w).
Proof. unfold forward, outside. by destruct (f (transport w)). Qed.

Lemma accounted_transport q s0 R H w t :
  accounted q s0 R H w -> accounted q s0 R H (set_transport t w).
Proof. intros (sp & tail & ?). by exists sp, tail. Qed.

Lemma accounted_finish q s0 R H w sp :
  spans w !! q = Some sp ->
  accounted q s0 R H w ->
  accounted q s0 R H (finishWorld q sp w) /\
  exists sp', spans (finishWorld q sp w) !! q = Some sp' /\ finished sp' = true.
Proof.
  intros Hq (sp1 & tail & Hq1 & Htr & Hsp & Hrep & Hh).
  rewrite Hq in Hq1. injection Hq1 as <-. split.
  - eexists _, (tail ++ [EvFinish q]). cbn.
    rewrite lookup_insert_eq. split; [done|]. cbn.
    split; [done|]. split; [done|]. split.
    + rewrite Hrep. by destruct (finished sp).
    + by rewrite Hh, app_assoc.
  - eexists. cbn. rewrite lookup_insert_eq. done.
Qed.

(** *** Client wrapper *)

Lemma ClientStreamWrapper_CloseSend_step (s : ClientStreamWrapper T) w q sp :
  csw_span s = Some q -> spans w !! q = Some sp ->
  ClientStreamWrapper_CloseSend s w =
    (Val (fst (csCloseSend (csw_stream s) (transport w))),
     set_transport (snd (csCloseSend (csw_stream s) (transport w)))
       (finishWorld q sp w)).
Proof.
  intros Hs Hq. unfold ClientStreamWrapper_CloseSend, bind. rewrite Hs.
  rewrite (Finish_step _ _ _ Hq). cbn [CloseSend ClientStream_ClientStreamOps].
  by rewrite forward_step.
Qed.

Lemma ClientStreamWrapper_SendMsg_step (s : ClientStreamWrapper T) m w q sp :
  csw_span s = Some q -> spans w !! q = Some sp ->
  ClientStreamWrapper_SendMsg s m w =
    (Val (fst (csSendMsg (csw_stream s) m (transport w))),
     match fst (csSendMsg (csw_stream s) m (transport w)) with
     | Some _ => finishWorld q sp
                   (set_transport (snd (csSendMsg (csw_stream s) m (transport w))) w)
     | None => set_transport (snd (csSendMsg (csw_stream s) m (transport w))) w
     end).
Proof.
  intros Hs Hq. unfold ClientStreamWrapper_SendMsg, bind. rewrite Hs.
  cbn [SendMsg ClientStream_Stream]. rewrite forward_step.
  destruct (fst (csSendMsg (csw_stream s) m (transport w))); [|done].
  by rewrite (Finish_step _ _ sp).
Qed.

Lemma ClientStreamWrapper_RecvMsg_step (s : ClientStreamWrapper T) w q sp :
  csw_span s = Some q -> spans w !! q = Some sp ->
  ClientStreamWrapper_RecvMsg s w =
    (Val (fst (csRecvMsg (csw_stream s) (transport w))),
     match fst (csRecvMsg (csw_stream s) (transport w)) with
     | Some _ => finishWorld q sp
                   (set_transport (snd (csRecvMsg (csw_stream s) (transport w))) w)
     | None => set_transport (snd (csRecvMsg (csw_stream s) (transport w))) w
     end).
Proof.
  intros Hs Hq. unfold ClientStreamWrapper_RecvMsg, bind. rewrite Hs.
  cbn [RecvMsg ClientStream_Stream]. rewrite forward_step.
  destruct (fst (csRecvMsg (csw_stream s) (transport w))); [|done].
  by rewrite (Finish_step _ _ sp).
Qed.

(** *** Server wrapper *)

Lemma ServerStreamWrapper_SendMsg_step (s : ServerStreamWrapper T) m w q sp :
  ssw_span s = Some q -> spans w !! q = Some sp ->
  ServerStreamWrapper_SendMsg s m w =
    (Val (fst (ssSendMsg (ssw_stream s) m (transport w))),
     match fst (ssSendMsg (ssw_stream s) m (transport w)) with
     | Some _ => finishWorld q sp
                   (set_transport (snd (ssSendMsg (ssw_stream s) m (transport w))) w)
     | None => set_transport (snd (ssSendMsg (ssw_stream s) m (transport w))) w
     end).
Proof.
  intros Hs Hq. unfold ServerStreamWrapper_SendMsg, bind. rewrite Hs.
  cbn [SendMsg ServerStream_Stream]. rewrite forward_step.
  destruct (fst (ssSendMsg (ssw_stream s) m (transport w))); [|done].
  by rewrite (Finish_step _ _ sp).
Qed.

Lemma ServerStreamWrapper_RecvMsg_step (s : ServerStreamWrapper T) w q sp :
  ssw_span s = Some q -> spans w !! q = Some sp ->
  ServerStreamWrapper_RecvMsg s w =
    (Val (fst (ssRecvMsg (ssw_stream s) (transport w))),
     match fst (ssRecvMsg (ssw_stream s) (transport w)) with
     | Some _ => finishWorld q sp
                   (set_transport (snd (ssRecvMsg (ssw_stream s) (transport w))) w)
     | None => set_transport (snd (ssRecvMsg (ssw_stream s) (transport w))) w
     end).
Proof.
  intros Hs Hq. unfold ServerStreamWrapper_RecvMsg, bind. rewrite Hs.
  cbn [RecvMsg ServerStream_Stream]. rewrite forward_step.
  destruct (fst (ssRecvMsg (ssw_stream s) (transport w))); [|done].
  by rewrite (Finish_step _ _ sp).
Qed.

End Wrappers.

(** ** Two triggers in a row *)

Section Triggers.
Context {T : Type}.
Implicit Types (w : World T) (p q : ptr).

Lemma client_trigger_step (s : ClientStreamWrapper T) op w q sp :
  csw_span s = Some q -> spans w !! q = Some sp ->
  clientTrigger (csw_stream s) op (transport w) = true ->
  runClientOp s op w =
    (Val (clientAnswer (csw_stream s) op (transport w)),
     set_transport (snd (clientCall (csw_stream s) op (transport w)))
       (finishWorld q sp w)).
Proof.
  intros Hs Hq Ht. destruct op as [|m|]; cbn [clientTrigger runClientOp CloseSend SendMsg RecvMsg
         ClientStreamWrapper_Stream ClientStreamWrapper_ClientStreamOps] in *.
  - by rewrite (ClientStreamWrapper_CloseSend_step _ _ _ _ Hs Hq).
  - rewrite (ClientStreamWrapper_SendMsg_step _ _ _ _ _ Hs Hq).
    apply bool_decide_eq_true in Ht as [e He]. unfold clientAnswer in *.
    cbn [clientCall] in *. by rewrite He.
  - rewrite (ClientStreamWrapper_RecvMsg_step _ _ _ _ Hs Hq).
    apply bool_decide_eq_true in Ht as [e He]. unfold clientAnswer in *.
    cbn [clientCall] in *. by rewrite He.
Qed.

Lemma server_trigger_step (s : ServerStreamWrapper T) op w q sp :
  ssw_span s = Some q -> spans w !! q = Some sp ->
  serverTrigger (ssw_stream s) op (transport w) = true ->
  runServerOp s op w =
    (Val (serverAnswer (ssw_stream s) op (transport w)),
     set_transport (snd (serverCall (ssw_stream s) op (transport w)))
       (finishWorld q sp w)).
Proof.
  intros Hs Hq Ht. apply bool_decide_eq_true in Ht as [e He].
  unfold serverAnswer in *. destruct op as [m|]; cbn [serverCall runServerOp SendMsg RecvMsg ServerStreamWrapper_Stream] in *.
  - rewrite (ServerStreamWrapper_SendMsg_step _ _ _ _ _ Hs Hq). by rewrite He.
  - rewrite (ServerStreamWrapper_RecvMsg_step _ _ _ _ Hs Hq). by rewrite He.
Qed.

(** C1: when the span [p] of a stream wrapper is open and two events that
    finish it happen one after the other (on a client wrapper: a half-close,
    a failed send or a failed receive; on a server wrapper: a failed send or
    a failed receive), neither call panics, each returns what the transport
    returned, [Finish] is called on [p] both times, and [p] is reported
    once. *)
Theorem second_trigger_reports_nothing :
  (forall w (s : ClientStreamWrapper T) p sp op1 op2,
     csw_span s = Some p -> spans w !! p = Some sp -> finished sp = false ->
     clientTrigger (csw_stream s) op1 (transport w) = true ->
     clientTrigger (csw_stream s) op2
       (transport (snd (runClientOp s op1 w))) = true ->
     fst (runClientOp s op1 w) =
       Val (clientAnswer (csw_stream s) op1 (transport w)) /\
     fst (runClientOp s op2 (snd (runClientOp s op1 w))) =
       Val (clientAnswer (csw_stream s) op2
              (transport (snd (runClientOp s op1 w)))) /\
     reported (snd (runClientOp s op2 (snd (runClientOp s op1 w)))) =
       reported w ++ [p] /\
     history (snd (runClientOp s op2 (snd (runClientOp s op1 w)))) =
       history w ++ [EvFinish p; EvFinish p]) /\
  (forall w (s : ServerStreamWrapper T) p sp op1 op2,
     ssw_span s = Some p -> spans w !! p = Some sp -> finished sp = false ->
     serverTrigger (ssw_stream s) op1 (transport w) = true ->
     serverTrigger (ssw_stream s) op2
       (transport (snd (runServerOp s op1 w))) = true ->
     fst (runServerOp s op1 w) =
       Val (serverAnswer (ssw_stream s) op1 (transport w)) /\
     fst (runServerOp s op2 (snd (runServerOp s op1 w))) =
       Val (serverAnswer (ssw_stream s) op2
              (transport (snd (runServerOp s op1 w)))) /\
     reported (snd (runServerOp s op2 (snd (runServerOp s op1 w)))) =
       reported w ++ [p] /\
     history (snd (runServerOp s op2 (snd (runServerOp s op1 w)))) =
       history w ++ [EvFinish p; EvFinish p]).
Proof.
  split.
  - intros w s p sp op1 op2 Hs Hp Hopen.
    intros H1. rewrite (client_trigger_step s op1 w p sp Hs Hp H1).
    cbn [fst snd]. intros H2. split; [done|].
    erewrite (client_trigger_step s op2 _ p) by
      (try done; cbn; apply lookup_insert_eq).
    cbn [fst snd]. split; [done|]. cbn. rewrite Hopen.
    split; [done|]. by rewrite <- app_assoc.
  - intros w s p sp op1 op2 Hs Hp Hopen.
    intros H1. rewrite (server_trigger_step s op1 w p sp Hs Hp H1).
    cbn [fst snd]. intros H2. split; [done|].
    erewrite (server_trigger_step s op2 _ p) by
      (try done; cbn; apply lookup_insert_eq).
    cbn [fst snd]. split; [done|]. cbn. rewrite Hopen.
    split; [done|]. by rewrite <- app_assoc.
Qed.

End Triggers.

(** ** Server side *)

Section Server.
Context {T : Type}.
Implicit Types (w : World T) (p q : ptr) (ctx : Context).

Lemma index_incoming w ctx :
  (forall l, ctxIncoming ctx = Some l -> is_Some (bags w !! l)) ->
  index (FromIncomingContext ctx) grpcMetadataKey w = (Val (incomingHeader ctx w), w).
Proof.
  intros Hin. unfold index, incomingHeader, FromIncomingContext.
  destruct (ctxIncoming ctx) as [l|]; [|done].
  destruct (Hin l eq_refl) as [md Hmd].
  unfold bind. by rewrite (loadBag_live _ _ _ Hmd), Hmd.
Qed.

Lemma incomingHeader_live w ctx vs :
  incomingHeader ctx w = Some vs ->
  forall l, ctxIncoming ctx = Some l -> is_Some (bags w !! l).
Proof.
  unfold incomingHeader. intros H l Hl. rewrite Hl in H.
  destruct (bags w !! l); [by eexists|done].
Qed.

Lemma callHandler_step w (handler : UnaryHandler T) ctx req :
  callHandler handler ctx req w =
    (fst (handler ctx req (transport w)),
     mkWorld (spans w) (bags w) (reported w) (idSupply w)
             (snd (handler ctx req (transport w)))
             (history w ++ [EvHandler ctx])).
Proof.
  unfold callHandler, outside. cbn. by destruct (handler ctx req (transport w)).
Qed.

(** Without the trace header the unary server interceptor is the handler. *)
Lemma unary_server_untraced tc w ctx req (handler : UnaryHandler T) :
  (forall l, ctxIncoming ctx = Some l -> is_Some (bags w !! l)) ->
  incomingHeader ctx w = None ->
  GRPCServerInterceptor tc ctx req handler w = callHandler handler ctx req w.
Proof.
  intros Hin Hh. unfold GRPCServerInterceptor, bind.
  by rewrite (index_incoming _ _ Hin), Hh.
Qed.

(** With the trace header: the whole effect of one call. *)
Lemma unary_server_traced tc w ctx req (handler : UnaryHandler T) vs tid parent opts :
  incomingHeader ctx w = Some vs ->
  decode (String.concat EmptyString vs) = (tid, parent, opts) ->
  let q := fresh (dom (spans w)) in
  let ctx' := NewContext ctx (Some q) in
  GRPCServerInterceptor tc ctx req handler w =
    (fst (handler ctx' req (transport w)),
     mkWorld (<[q := mkSpan (mkTrace tid opts) (mkTraceSpan EmptyString (idSupply w) parent) ∅ true]>
                (spans w))
             (bags w) (reported w ++ [q]) ((idSupply w + 1) mod 2 ^ 64)
             (snd (handler ctx' req (transport w)))
             (history w ++ [EvHandler ctx'; EvFinish q])).
Proof.
  intros Hh Hd q ctx'. unfold GRPCServerInterceptor, bind.
  rewrite (index_incoming _ _ (incomingHeader_live _ _ _ Hh)), Hh.
  rewrite (SpanFromHeader_step _ _ _ _ _ _ _ Hd). fold q. fold ctx'.
  unfold defer. rewrite callHandler_step.
  cbn [bags spans reported idSupply transport history].
  erewrite Finish_open; [|by apply lookup_insert_eq|done].
  cbn [bags spans reported idSupply transport history trace span labels finished].
  by rewrite insert_insert_eq, <- app_assoc.
Qed.

(** C9: on a unary server call whose incoming metadata lacks the
    trace-header key the handler is called once, with the context the
    interceptor was given; no span is added to the store, none is reported,
    [Finish] is not called, and what the handler returns is what the
    interceptor returns. *)
Theorem unary_server_without_header_passes_through tc w ctx req
    (handler : UnaryHandler T) :
  liveContext ctx w ->
  incomingHeader ctx w = None ->
  fst (GRPCServerInterceptor tc ctx req handler w) =
    fst (handler ctx req (transport w)) /\
  history (snd (GRPCServerInterceptor tc ctx req handler w)) =
    history w ++ [EvHandler ctx] /\
  spans (snd (GRPCServerInterceptor tc ctx req handler w)) = spans w /\
  reported (snd (GRPCServerInterceptor tc ctx req handler w)) = reported w.
Proof.
  intros (_ & _ & Hin) Hh.
  by rewrite (unary_server_untraced _ _ _ _ _ Hin Hh), callHandler_step.
Qed.

(** *** A handler at work on a wrapped stream *)

Lemma accounted_after_call q s0 R H w sp (e : option error) t :
  spans w !! q = Some sp ->
  accounted q s0 R H w ->
  accounted q s0 R H
    (match e with
     | Some _ => finishWorld q sp (set_transport t w)
     | None => set_transport t w
     end).
Proof.
  intros Hq Hacc. destruct e.
  - apply accounted_finish; [done|]. by apply accounted_transport.
  - by apply accounted_transport.
Qed.

Lemma runHandler_accounted (s : ServerStreamWrapper T) q s0 R H h :
  ssw_span s = Some q ->
  forall w, accounted q s0 R H w -> accounted q s0 R H (snd (runHandler s h w)).
Proof.
  intros Hs. induction h as [err| |m k IH|k IH|k IH]; intros w Hacc.
  - done.
  - done.
  - pose proof Hacc as (sp & tail & Hq & Hrest).
    cbn [runHandler SendMsg ServerStreamWrapper_Stream]. unfold bind.
    rewrite (ServerStreamWrapper_SendMsg_step _ _ _ _ _ Hs Hq).
    apply IH. by apply accounted_after_call.
  - pose proof Hacc as (sp & tail & Hq & Hrest).
    cbn [runHandler RecvMsg ServerStreamWrapper_Stream]. unfold bind.
    rewrite (ServerStreamWrapper_RecvMsg_step _ _ _ _ Hs Hq).
    apply IH. by apply accounted_after_call.
  - cbn [runHandler]. by apply IH.
Qed.

End Server.

Section StreamServer.
Context {T : Type}.
Implicit Types (w : World T) (p q : ptr) (ctx : Context).

(** With the trace header: what the streaming server interceptor leaves
    behind, whatever the handler does with the wrapped stream. *)
Lemma stream_server_traced tc w (ss : ServerStream T) handler vs tid parent opts :
  incomingHeader (ssContext ss) w = Some vs ->
  decode (String.concat EmptyString vs) = (tid, parent, opts) ->
  exists sp tail,
    spans (snd (GRPCStreamServerInterceptor tc ss handler w))
      !! fresh (dom (spans w)) = Some sp /\
    trace sp = mkTrace tid opts /\
    span sp = mkTraceSpan EmptyString (idSupply w) parent /\
    finished sp = true /\
    reported (snd (GRPCStreamServerInterceptor tc ss handler w)) =
      reported w ++ [fresh (dom (spans w))] /\
    history (snd (GRPCStreamServerInterceptor tc ss handler w)) =
      history w ++
        EvStreamHandler true (NewContext (ssContext ss) (Some (fresh (dom (spans w)))))
        :: tail ++ [EvFinish (fresh (dom (spans w)))].
Proof.
  intros Hh Hd. set (q := fresh (dom (spans w))).
  unfold GRPCStreamServerInterceptor, bind.
  cbn [StreamContext ServerStream_Stream].
  rewrite (index_incoming _ _ (incomingHeader_live _ _ _ Hh)), Hh.
  rewrite (SpanFromHeader_step _ _ _ _ _ _ _ Hd). fold q.
  unfold defer, callStreamHandler, bind, modify.
  cbn [StreamContext ServerStreamWrapper_Stream ServerStreamWrapper_Context ssw_context].
  set (s0 := mkSpan (mkTrace tid opts) (mkTraceSpan EmptyString (idSupply w) parent) ∅ false).
  set (ctx' := NewContext (ssContext ss) (Some q)).
  set (wr := mkServerStreamWrapper ss (Some q) ctx').
  match goal with
  | |- context [runHandler wr handler ?w0] => set (w2 := w0)
  end.
  assert (Hacc : accounted q s0 (reported w)
                   (history w ++ [EvStreamHandler true ctx']) w2).
  { exists s0, []. subst w2. cbn. rewrite lookup_insert_eq.
    by rewrite app_nil_r. }
  apply (runHandler_accounted wr q s0 _ _ handler eq_refl) in Hacc.
  destruct (runHandler wr handler w2) as [r w3]. cbn [snd] in Hacc.
  destruct Hacc as (sp & tail & Hq & Htr & Hsp & Hrep & Hhist).
  rewrite (Finish_step _ _ _ Hq). cbn [snd finishWorld spans reported history].
  exists (mkSpan (trace sp) (span sp) (labels sp) true), tail.
  rewrite lookup_insert_eq. cbn [trace span finished].
  split; [done|]. split; [done|]. split; [done|]. split; [done|]. split.
  - rewrite Hrep. by destruct (finished sp).
  - rewrite Hhist. by rewrite <- !app_assoc.
Qed.

(** C2: on a server streaming call whose incoming metadata holds the
    trace-header key, the handler is given a stream whose context carries a
    new span [q]; when the interceptor has returned, whether the handler
    returned normally, returned an error or panicked, and whether or not a
    failed send or receive finished [q] before, [q] is finished, it has been
    reported once, and the last [Finish] is the deferred one. *)
Theorem stream_server_span_is_finished tc w (ss : ServerStream T) handler vs :
  incomingHeader (ssContext ss) w = Some vs ->
  exists q sp tail,
    spans w !! q = None /\
    spans (snd (GRPCStreamServerInterceptor tc ss handler w)) !! q = Some sp /\
    finished sp = true /\
    reported (snd (GRPCStreamServerInterceptor tc ss handler w)) =
      reported w ++ [q] /\
    history (snd (GRPCStreamServerInterceptor tc ss handler w)) =
      history w ++
        EvStreamHandler true (NewContext (ssContext ss) (Some q))
        :: tail ++ [EvFinish q].
Proof.
  intros Hh.
  destruct (decode (String.concat EmptyString vs)) as [[tid parent] opts] eqn:Hd.
  destruct (stream_server_traced tc w ss handler vs _ _ _ Hh Hd)
    as (sp & tail & Hq & _ & _ & Hf & Hrep & Hhist).
  exists (fresh (dom (spans w))), sp, tail.
  split; [apply fresh_span|]. done.
Qed.

(** C10: the span either server interceptor hands to its handler has the
    trace id, parent-span-id and options decoded from all values found under
    the trace-header key, concatenated in order with nothing in between. *)
Theorem server_interceptors_join_header_values tc w ctx req
    (handler : UnaryHandler T) (ss : ServerStream T) streamHandler vs :
  (incomingHeader ctx w = Some vs ->
   exists q sp,
     spans w !! q = None /\
     spans (snd (GRPCServerInterceptor tc ctx req handler w)) !! q = Some sp /\
     (traceID (trace sp), ParentSpanId (span sp), globalOptions (trace sp)) =
       decode (String.concat EmptyString vs) /\
     history (snd (GRPCServerInterceptor tc ctx req handler w)) =
       history w ++ [EvHandler (NewContext ctx (Some q)); EvFinish q]) /\
  (incomingHeader (ssContext ss) w = Some vs ->
   exists q sp tail,
     spans w !! q = None /\
     spans (snd (GRPCStreamServerInterceptor tc ss streamHandler w)) !! q = Some sp /\
     (traceID (trace sp), ParentSpanId (span sp), globalOptions (trace sp)) =
       decode (String.concat EmptyString vs) /\
     history (snd (GRPCStreamServerInterceptor tc ss streamHandler w)) =
       history w ++
         EvStreamHandler true (NewContext (ssContext ss) (Some q)) :: tail).
Proof.
  destruct (decode (String.concat EmptyString vs)) as [[tid parent] opts] eqn:Hd.
  split; intros Hh.
  - rewrite (unary_server_traced _ _ _ _ _ _ _ _ _ Hh Hd).
    eexists _, _. cbn [snd spans history].
    split; [apply fresh_span|]. split; [apply lookup_insert_eq|]. done.
  - destruct (stream_server_traced tc w ss streamHandler vs _ _ _ Hh Hd)
      as (sp & tail & Hq & Htr & Hsp & _ & _ & Hhist).
    exists (fresh (dom (spans w))), sp, (tail ++ [EvFinish (fresh (dom (spans w)))]).
    split; [apply fresh_span|]. split; [done|].
    rewrite Htr, Hsp. done.
Qed.

End StreamServer.

(** ** The properties at the sample inputs *)

Lemma sampleCtx_live : liveContext sampleCtx sampleWorld.
Proof.
  repeat split; intros x [= <-]; eexists; reflexivity.
Defined.

Lemma sampleSpan_valid : validSpan sampleSpan.
Proof.
  unfold validSpan, valid_triple, uint64_max. cbn.
  split; [reflexivity | split; lia].
Defined.

Lemma decode_encode_roundtrip_witness :
  valid_triple "abc" 42 1 /\
  decode (spanHeader "abc" 42 1) = ("abc", 42, 1).
Proof.
  split; [exact sampleSpan_valid|].
  apply (decode_encode_roundtrip "abc" 42 1). exact sampleSpan_valid.
Defined.

Lemma second_trigger_reports_nothing_witness :
  csw_span brokenWrapper = Some 5%positive /\
  spans sampleWorld !! 5%positive = Some sampleSpan /\
  finished sampleSpan = false /\
  clientTrigger (csw_stream brokenWrapper) (OpSendMsg "a") (transport sampleWorld) = true /\
  clientTrigger (csw_stream brokenWrapper) OpRecvMsg
    (transport (snd (runClientOp brokenWrapper (OpSendMsg "a") sampleWorld))) = true /\
  fst (runClientOp brokenWrapper (OpSendMsg "a") sampleWorld) =
    Val (clientAnswer (csw_stream brokenWrapper) (OpSendMsg "a") (transport sampleWorld)) /\
  fst (runClientOp brokenWrapper OpRecvMsg
         (snd (runClientOp brokenWrapper (OpSendMsg "a") sampleWorld))) =
    Val (clientAnswer (csw_stream brokenWrapper) OpRecvMsg
           (transport (snd (runClientOp brokenWrapper (OpSendMsg "a") sampleWorld)))) /\
  reported (snd (runClientOp brokenWrapper OpRecvMsg
                   (snd (runClientOp brokenWrapper (OpSendMsg "a") sampleWorld)))) =
    reported sampleWorld ++ [5%positive] /\
  history (snd (runClientOp brokenWrapper OpRecvMsg
                  (snd (runClientOp brokenWrapper (OpSendMsg "a") sampleWorld)))) =
    history sampleWorld ++ [EvFinish 5%positive; EvFinish 5%positive].
Proof.
  assert (H1 : csw_span brokenWrapper = Some 5%positive) by reflexivity.
  assert (H2 : spans sampleWorld !! 5%positive = Some sampleSpan) by reflexivity.
  assert (H3 : finished sampleSpan = false) by reflexivity.
  assert (H4 : clientTrigger (csw_stream brokenWrapper) (OpSendMsg "a")
                 (transport sampleWorld) = true) by reflexivity.
  assert (H5 : clientTrigger (csw_stream brokenWrapper) OpRecvMsg
                 (transport (snd (runClientOp brokenWrapper (OpSendMsg "a") sampleWorld)))
               = true) by (vm_compute; reflexivity).
  do 5 (split; [assumption|]).
  exact (proj1 second_trigger_reports_nothing sampleWorld brokenWrapper 5%positive
           sampleSpan (OpSendMsg "a") OpRecvMsg H1 H2 H3 H4 H5).
Defined.

Lemma bareCtx_live : liveContext bareCtx sampleWorld.
Proof. repeat split; intros x [=]. Defined.

Lemma unary_client_header_names_parent_witness :
  FromContext sampleCtx = Some 5%positive /\
  spans sampleWorld !! 5%positive = Some sampleSpan /\
  validSpan sampleSpan /\
  liveContext sampleCtx sampleWorld /\
  exists ctx' md h c,
    history (snd (grpcUnaryInterceptor sampleCtx "Echo" "ping" failingInvoker
                    sampleWorld)) =
      history sampleWorld ++ [EvInvoke ctx' (Some md); EvFinish c] /\
    md !! grpcMetadataKey = Some [h] /\
    decode h = (traceID (trace sampleSpan), SpanId (span sampleSpan),
                globalOptions (trace sampleSpan)) /\
    forall tc name (w0 : World N), exists q sp,
      fst (SpanFromHeader tc name h w0) = Val (Some q) /\
      spans (snd (SpanFromHeader tc name h w0)) !! q = Some sp /\
      ParentSpanId (span sp) = SpanId (span sampleSpan).
Proof.
  split; [reflexivity|]. split; [reflexivity|].
  split; [exact sampleSpan_valid|]. split; [exact sampleCtx_live|].
  exact (unary_client_header_names_parent sampleWorld sampleCtx "Echo" "ping"
           failingInvoker 5%positive sampleSpan eq_refl eq_refl
           sampleSpan_valid sampleCtx_live).
Defined.

Lemma client_interceptors_leave_caller_bag_witness :
  FromContext sampleCtx = Some 5%positive /\
  spans sampleWorld !! 5%positive = Some sampleSpan /\
  FromOutgoingContext sampleCtx = Some 3%positive /\
  bags sampleWorld !! 3%positive = Some {[ "authorization" := ["token"] ]} /\
  exists l' h,
    l' <> 3%positive /\ bags sampleWorld !! l' = None /\
    (bags (snd (grpcUnaryInterceptor sampleCtx "Echo" "ping" failingInvoker
                  sampleWorld)) !! 3%positive =
       Some {[ "authorization" := ["token"] ]} /\
     bags (snd (grpcUnaryInterceptor sampleCtx "Echo" "ping" failingInvoker
                  sampleWorld)) !! l' =
       Some (<[grpcMetadataKey := [h]]> {[ "authorization" := ["token"] ]}) /\
     exists c,
       history (snd (grpcUnaryInterceptor sampleCtx "Echo" "ping" failingInvoker
                       sampleWorld)) =
         history sampleWorld ++
           [EvInvoke (NewOutgoingContext sampleCtx l')
              (Some (<[grpcMetadataKey := [h]]> {[ "authorization" := ["token"] ]}));
            EvFinish c]) /\
    (bags (snd (grpcStreamClientInterceptor sampleCtx "Echo" failingStreamer
                  sampleWorld)) !! 3%positive =
       Some {[ "authorization" := ["token"] ]} /\
     bags (snd (grpcStreamClientInterceptor sampleCtx "Echo" failingStreamer
                  sampleWorld)) !! l' =
       Some (<[grpcMetadataKey := [h]]> {[ "authorization" := ["token"] ]}) /\
     exists tail,
       history (snd (grpcStreamClientInterceptor sampleCtx "Echo" failingStreamer
                       sampleWorld)) =
         history sampleWorld ++
           EvStreamer (NewOutgoingContext sampleCtx l')
             (Some (<[grpcMetadataKey := [h]]> {[ "authorization" := ["token"] ]}))
           :: tail).
Proof.
  split; [reflexivity|]. split; [reflexivity|].
  split; [reflexivity|]. split; [reflexivity|].
  exact (client_interceptors_leave_caller_bag sampleWorld sampleCtx "Echo" "ping"
           failingInvoker failingStreamer 5%positive sampleSpan 3%positive
           {[ "authorization" := ["token"] ]} eq_refl eq_refl eq_refl eq_refl).
Defined.

Lemma stream_client_failure_finishes_span_witness :
  liveContext sampleCtx sampleWorld /\
  exists ctx' md,
    (exists tail,
       history (snd (grpcStreamClientInterceptor sampleCtx "Echo" failingStreamer
                       sampleWorld)) =
         history sampleWorld ++ EvStreamer ctx' md :: tail) /\
    forall e, fst (failingStreamer ctx' md "Echo" (transport sampleWorld)) = Val (inr e) ->
      fst (grpcStreamClientInterceptor sampleCtx "Echo" failingStreamer sampleWorld) =
        Val (None, Some e) /\
      forall p S, FromContext sampleCtx = Some p -> spans sampleWorld !! p = Some S ->
        exists c child,
          spans sampleWorld !! c = None /\
          spans (snd (grpcStreamClientInterceptor sampleCtx "Echo" failingStreamer
                        sampleWorld)) !! c = Some child /\
          Name (span child) = "Echo" /\
          ParentSpanId (span child) = SpanId (span S) /\
          finished child = true /\
          history (snd (grpcStreamClientInterceptor sampleCtx "Echo" failingStreamer
                          sampleWorld)) =
            history sampleWorld ++ [EvStreamer ctx' md; EvFinish c] /\
          reported (snd (grpcStreamClientInterceptor sampleCtx "Echo" failingStreamer
                           sampleWorld)) =
            reported sampleWorld ++ [c].
Proof.
  split; [exact sampleCtx_live|].
  exact (stream_client_failure_finishes_span sampleWorld sampleCtx "Echo"
           failingStreamer sampleCtx_live).
Defined.

Lemma unary_client_without_span_passes_through_witness :
  FromContext bareCtx = None /\
  fst (grpcUnaryInterceptor bareCtx "Echo" "ping" failingInvoker sampleWorld) =
    fst (failingInvoker bareCtx (outgoingMD bareCtx sampleWorld) "Echo" "ping"
           (transport sampleWorld)) /\
  history (snd (grpcUnaryInterceptor bareCtx "Echo" "ping" failingInvoker sampleWorld)) =
    history sampleWorld ++ [EvInvoke bareCtx (outgoingMD bareCtx sampleWorld)] /\
  bags (snd (grpcUnaryInterceptor bareCtx "Echo" "ping" failingInvoker sampleWorld)) =
    bags sampleWorld /\
  spans (snd (grpcUnaryInterceptor bareCtx "Echo" "ping" failingInvoker sampleWorld)) =
    spans sampleWorld /\
  reported (snd (grpcUnaryInterceptor bareCtx "Echo" "ping" failingInvoker sampleWorld)) =
    reported sampleWorld.
Proof.
  split; [reflexivity|].
  exact (unary_client_without_span_passes_through sampleWorld bareCtx "Echo" "ping"
           failingInvoker eq_refl).
Defined.

Lemma unary_client_labels_error_witness :
  FromContext sampleCtx = Some 5%positive /\
  spans sampleWorld !! 5%positive = Some sampleSpan /\
  liveContext sampleCtx sampleWorld /\
  exists ctx' md c child,
    spans sampleWorld !! c = None /\
    spans (snd (grpcUnaryInterceptor sampleCtx "Echo" "ping" failingInvoker
                  sampleWorld)) !! c = Some child /\
    Name (span child) = "Echo" /\
    ParentSpanId (span child) = SpanId (span sampleSpan) /\
    history (snd (grpcUnaryInterceptor sampleCtx "Echo" "ping" failingInvoker
                    sampleWorld)) =
      history sampleWorld ++ [EvInvoke ctx' md; EvFinish c] /\
    (forall e, fst (failingInvoker ctx' md "Echo" "ping" (transport sampleWorld)) =
                 Val (Some e) ->
       fst (grpcUnaryInterceptor sampleCtx "Echo" "ping" failingInvoker sampleWorld) =
         Val (Some e) /\
       labels child !! "error" = Some (Error e)) /\
    (fst (failingInvoker ctx' md "Echo" "ping" (transport sampleWorld)) = Val None ->
       fst (grpcUnaryInterceptor sampleCtx "Echo" "ping" failingInvoker sampleWorld) =
         Val None /\
       labels child !! "error" = None).
Proof.
  split; [reflexivity|]. split; [reflexivity|]. split; [exact sampleCtx_live|].
  exact (unary_client_labels_error sampleWorld sampleCtx "Echo" "ping"
           failingInvoker 5%positive sampleSpan eq_refl eq_refl sampleCtx_live).
Defined.

Lemma unary_server_without_header_passes_through_witness :
  liveContext bareCtx sampleWorld /\
  incomingHeader bareCtx sampleWorld = None /\
  fst (GRPCServerInterceptor tt bareCtx "ping" echoHandler sampleWorld) =
    fst (echoHandler bareCtx "ping" (transport sampleWorld)) /\
  history (snd (GRPCServerInterceptor tt bareCtx "ping" echoHandler sampleWorld)) =
    history sampleWorld ++ [EvHandler bareCtx] /\
  spans (snd (GRPCServerInterceptor tt bareCtx "ping" echoHandler sampleWorld)) =
    spans sampleWorld /\
  reported (snd (GRPCServerInterceptor tt bareCtx "ping" echoHandler sampleWorld)) =
    reported sampleWorld.
Proof.
  split; [exact bareCtx_live|]. split; [reflexivity|].
  exact (unary_server_without_header_passes_through tt sampleWorld bareCtx "ping"
           echoHandler bareCtx_live eq_refl).
Defined.

Lemma stream_server_span_is_finished_witness :
  incomingHeader (ssContext brokenServerStream) serverWorld = Some ["abc/4"; "2;o=1"] /\
  exists q sp tail,
    spans serverWorld !! q = None /\
    spans (snd (GRPCStreamServerInterceptor tt brokenServerStream sendOnce serverWorld))
      !! q = Some sp /\
    finished sp = true /\
    reported (snd (GRPCStreamServerInterceptor tt brokenServerStream sendOnce
                     serverWorld)) =
      reported serverWorld ++ [q] /\
    history (snd (GRPCStreamServerInterceptor tt brokenServerStream sendOnce
                    serverWorld)) =
      history serverWorld ++
        EvStreamHandler true (NewContext (ssContext brokenServerStream) (Some q))
        :: tail ++ [EvFinish q].
Proof.
  split; [reflexivity|].
  exact (stream_server_span_is_finished tt serverWorld brokenServerStream sendOnce
           ["abc/4"; "2;o=1"] eq_refl).
Defined.

Lemma server_interceptors_join_header_values_witness :
  incomingHeader serverCtx serverWorld = Some ["abc/4"; "2;o=1"] /\
  decode (String.concat EmptyString ["abc/4"; "2;o=1"]) = ("abc", 42, 1) /\
  decode "abc/4" = ("abc", 4, 0) /\
  exists q sp,
    spans serverWorld !! q = None /\
    spans (snd (GRPCServerInterceptor tt serverCtx "ping" echoHandler serverWorld))
      !! q = Some sp /\
    (traceID (trace sp), ParentSpanId (span sp), globalOptions (trace sp)) =
      decode (String.concat EmptyString ["abc/4"; "2;o=1"]) /\
    history (snd (GRPCServerInterceptor tt serverCtx "ping" echoHandler serverWorld)) =
      history serverWorld ++ [EvHandler (NewContext serverCtx (Some q)); EvFinish q].
Proof.
  split; [reflexivity|]. split; [reflexivity|]. split; [reflexivity|].
  exact (proj1 (server_interceptors_join_header_values tt serverWorld serverCtx "ping"
                  echoHandler brokenServerStream sendOnce ["abc/4"; "2;o=1"])
           eq_refl).
Defined.

(** A failed send finishes the span, the handler returns, the deferred
    [Finish] comes second: two calls, one report. *)
Example stream_server_error_then_return :
  reported (snd (GRPCStreamServerInterceptor tt brokenServerStream sendOnce
                   serverWorld)) = [1%positive] /\
  history (snd (GRPCStreamServerInterceptor tt brokenServerStream sendOnce
                  serverWorld)) =
    [EvStreamHandler true (NewContext serverCtx (Some 1%positive));
     EvFinish 1%positive; EvFinish 1%positive] /\
  fst (GRPCStreamServerInterceptor tt brokenServerStream sendOnce serverWorld) =
    Val (Some (mkError 1 "send failed")).
Proof. repeat split; vm_compute; reflexivity. Qed.

(** * Further properties of the wrappers and interceptors *)

(** ** Sequences of calls on a client wrapper *)

Section ClientSequences.
Context {T : Type}.
Implicit Types (w : World T) (p q : ptr) (s : ClientStreamWrapper T).

Lemma raw_client_op_step (cs : ClientStream T) op w :
  runClientOp cs op w =
    (Val (clientAnswer cs op (transport w)),
     set_transport (snd (clientCall cs op (transport w))) w).
Proof. destruct op; cbn; by rewrite forward_step. Qed.

Lemma clientTrigger_finishing (cs : ClientStream T) op t :
  clientTrigger cs op t = finishing op (clientAnswer cs op t).
Proof.
  destruct op; cbn [clientTrigger finishing]; [done| |];
    destruct (clientAnswer cs _ t) eqn:E; try done.
Qed.

Lemma client_quiet_step s op w :
  (forall p, csw_span s = Some p -> is_Some (spans w !! p)) ->
  (csw_span s = None \/ clientTrigger (csw_stream s) op (transport w) = false) ->
  runClientOp s op w =
    (Val (clientAnswer (csw_stream s) op (transport w)),
     set_transport (snd (clientCall (csw_stream s) op (transport w))) w).
Proof.
  intros Hlive Hq. unfold clientAnswer.
  destruct (csw_span s) as [p|] eqn:Hs.
  - destruct Hq as [|Hq]; [done|]. destruct (Hlive p eq_refl) as [sp Hp].
    destruct op as [|m|]; [done| |];
      cbn [clientTrigger runClientOp SendMsg RecvMsg
           ClientStreamWrapper_Stream] in *;
      apply bool_decide_eq_false in Hq; unfold clientAnswer in Hq;
      cbn [clientCall] in *.
    + rewrite (ClientStreamWrapper_SendMsg_step _ _ _ _ _ Hs Hp).
      destruct (fst (csSendMsg (csw_stream s) m (transport w))) eqn:E; [|done].
      destruct Hq. by eexists.
    + rewrite (ClientStreamWrapper_RecvMsg_step _ _ _ _ Hs Hp).
      destruct (fst (csRecvMsg (csw_stream s) (transport w))) eqn:E; [|done].
      destruct Hq. by eexists.
  - destruct op as [|m|];
      cbn [runClientOp CloseSend SendMsg RecvMsg ClientStreamWrapper_Stream
           ClientStreamWrapper_ClientStreamOps ClientStream_Stream
           ClientStream_ClientStreamOps clientCall].
    + unfold ClientStreamWrapper_CloseSend, bind, ret. rewrite Hs.
      cbn [CloseSend ClientStream_ClientStreamOps]. by rewrite forward_step.
    + unfold ClientStreamWrapper_SendMsg, bind, ret. rewrite Hs.
      cbn [SendMsg ClientStream_Stream]. rewrite forward_step.
      by destruct (fst (csSendMsg (csw_stream s) m (transport w))).
    + unfold ClientStreamWrapper_RecvMsg, bind, ret. rewrite Hs.
      cbn [RecvMsg ClientStream_Stream]. rewrite forward_step.
      by destruct (fst (csRecvMsg (csw_stream s) (transport w))).
Qed.

(** The calls [ops] on the stream itself: what they return and where they
    leave the outside world depends on the outside world alone, and nothing
    else changes. *)
Lemma raw_client_ops_run (cs : ClientStream T) ops :
  forall w, exists es,
    length es = length ops /\
    forall w0, transport w0 = transport w ->
      runClientOps cs ops w0 =
        (Val es, set_transport (transport (snd (runClientOps cs ops w))) w0).
Proof.
  induction ops as [|op rest IH]; intros w.
  - exists []. split; [done|]. intros w0 Ht. cbn. unfold ret. cbn.
    rewrite <- Ht. by destruct w0.
  - cbn [runClientOps]. unfold bind at 1 3. rewrite raw_client_op_step.
    destruct (IH (set_transport (snd (clientCall cs op (transport w))) w))
      as (es & Hlen & Hes).
    exists (clientAnswer cs op (transport w) :: es). split; [cbn; by rewrite Hlen|].
    intros w0 Ht. unfold bind at 1. rewrite raw_client_op_step, Ht.
    unfold bind, ret. rewrite (Hes _ eq_refl).
    rewrite (Hes (set_transport _ w0)) by done. done.
Qed.

Lemma client_op_step s op w p sp :
  csw_span s = Some p -> spans w !! p = Some sp ->
  runClientOp s op w =
    (Val (clientAnswer (csw_stream s) op (transport w)),
     if finishing op (clientAnswer (csw_stream s) op (transport w))
     then set_transport (snd (clientCall (csw_stream s) op (transport w)))
            (finishWorld p sp w)
     else set_transport (snd (clientCall (csw_stream s) op (transport w))) w).
Proof.
  intros Hs Hp. rewrite <- clientTrigger_finishing.
  destruct (clientTrigger (csw_stream s) op (transport w)) eqn:Ht.
  - by apply client_trigger_step.
  - apply client_quiet_step; [|by right].
    intros p0 Hp0. rewrite Hs in Hp0. injection Hp0 as <-. by eexists.
Qed.

Lemma runClientOps_cons {S} `{ClientStreamOps T S} (x : S) op rest w e w1 es w2 :
  runClientOp x op w = (Val e, w1) ->
  runClientOps x rest w1 = (Val es, w2) ->
  runClientOps x (op :: rest) w = (Val (e :: es), w2).
Proof. intros H1 H2. cbn. unfold bind, ret. by rewrite H1, H2. Qed.

(** What a sequence of calls on a client wrapper with span [p] comes to. *)
Lemma client_wrapper_ops_run s p ops :
  csw_span s = Some p ->
  forall w sp, spans w !! p = Some sp ->
  exists es sp',
    fst (runClientOps s ops w) = Val es /\
    fst (runClientOps (csw_stream s) ops w) = Val es /\
    transport (snd (runClientOps s ops w)) =
      transport (snd (runClientOps (csw_stream s) ops w)) /\
    history (snd (runClientOps s ops w)) =
      history w ++ replicate (finishingCalls ops es) (EvFinish p) /\
    reported (snd (runClientOps s ops w)) =
      (if finished sp then reported w
       else match finishingCalls ops es with
            | O => reported w
            | S _ => reported w ++ [p]
            end) /\
    bags (snd (runClientOps s ops w)) = bags w /\
    spans (snd (runClientOps s ops w)) !! p = Some sp' /\
    finished sp' = (finished sp ||
                    match finishingCalls ops es with O => false | S _ => true end) /\
    (forall p', p' <> p ->
       spans (snd (runClientOps s ops w)) !! p' = spans w !! p').
Proof.
  intros Hs. induction ops as [|op rest IH]; intros w sp Hp.
  - exists [], sp. cbn. rewrite app_nil_r, orb_false_r.
    by destruct (finished sp).
  - pose proof (client_op_step _ op _ _ _ Hs Hp) as E1.
    pose proof (raw_client_op_step (csw_stream s) op w) as E0.
    set (e := clientAnswer (csw_stream s) op (transport w)) in *.
    set (t1 := snd (clientCall (csw_stream s) op (transport w))) in *.
    destruct (finishing op e) eqn:Hfin.
    + (* the call finishes the span *)
      destruct (IH (set_transport t1 (finishWorld p sp w))
                  (mkSpan (trace sp) (span sp) (labels sp) true))
        as (es & sp' & Hw & Hr & Ht & Hh & Hrep & Hb & Hsp & Hf & Hoth).
      { cbn. apply lookup_insert_eq. }
      destruct (raw_client_ops_run (csw_stream s) rest
                  (set_transport t1 (finishWorld p sp w))) as (es0 & _ & Hraw).
      pose proof (Hraw _ eq_refl) as Hraw1. rewrite Hraw1 in Hr.
      cbn [fst] in Hr. injection Hr as ->.
      pose proof (Hraw (set_transport t1 w) eq_refl) as Hraw2.
      destruct (runClientOps s rest (set_transport t1 (finishWorld p sp w)))
        as [r w2] eqn:Erun. cbn [fst snd] in *. subst r.
      rewrite (runClientOps_cons _ _ _ _ _ _ _ _ E1 Erun).
      rewrite (runClientOps_cons _ _ _ _ _ _ _ _ E0 Hraw2).
      cbn [fst snd].
      exists (e :: es), sp'. cbn [finishingCalls]. rewrite Hfin.
      split; [done|]. split; [done|].
      split; [exact Ht|].
      split; [rewrite Hh; cbn; by rewrite <- app_assoc|].
      split; [rewrite Hrep; cbn; by destruct (finished sp)|].
      split; [by rewrite Hb|]. split; [done|].
      split; [rewrite Hf; cbn; by rewrite orb_true_r|].
      intros p' Hne. rewrite (Hoth p' Hne). cbn. by rewrite lookup_insert_ne.
    + (* the call leaves the span alone *)
      destruct (IH (set_transport t1 w) sp)
        as (es & sp' & Hw & Hr & Ht & Hh & Hrep & Hb & Hsp & Hf & Hoth); [done|].
      destruct (runClientOps s rest (set_transport t1 w)) as [r w2] eqn:Erun.
      destruct (runClientOps (csw_stream s) rest (set_transport t1 w))
        as [r0 w3] eqn:Eraw.
      cbn [fst snd] in *. subst r r0.
      rewrite (runClientOps_cons _ _ _ _ _ _ _ _ E1 Erun).
      rewrite (runClientOps_cons _ _ _ _ _ _ _ _ E0 Eraw).
      exists (e :: es), sp'. cbn [finishingCalls]. rewrite Hfin.
      done.
Qed.

End ClientSequences.

Section ClientWrapperProperties.
Context {T : Type}.
Implicit Types (w : World T) (p q : ptr) (s : ClientStreamWrapper T).

Lemma spanless_client_wrapper_run s ops :
  csw_span s = None ->
  forall w, runClientOps s ops w = runClientOps (csw_stream s) ops w.
Proof.
  intros Hs. induction ops as [|op rest IH]; intros w; [done|].
  cbn [runClientOps]. unfold bind.
  rewrite client_quiet_step, raw_client_op_step; [|by rewrite Hs|by left].
  by rewrite IH.
Qed.

(** X3: a client wrapper without span is the stream it wraps: every sequence
    of [CloseSend], [SendMsg] and [RecvMsg] returns the same results and
    leaves the same world, so no span is touched and [Finish] is never
    called. *)
Theorem client_wrapper_without_span_is_the_stream s ops w :
  csw_span s = None ->
  runClientOps s ops w = runClientOps (csw_stream s) ops w /\
  spans (snd (runClientOps s ops w)) = spans w /\
  reported (snd (runClientOps s ops w)) = reported w /\
  history (snd (runClientOps s ops w)) = history w.
Proof.
  intros Hs. rewrite (spanless_client_wrapper_run _ _ Hs).
  split; [done|].
  destruct (raw_client_ops_run (csw_stream s) ops w) as (es & _ & Hraw).
  by rewrite (Hraw w eq_refl).
Qed.

(** X1: whatever its span, a client wrapper is transparent to its user: every
    sequence of calls returns on the wrapper what it returns on the wrapped
    stream, none panics, and the outside world ends up the same. *)
Theorem client_wrapper_is_transparent s ops w :
  (forall p, csw_span s = Some p -> is_Some (spans w !! p)) ->
  exists es,
    length es = length ops /\
    fst (runClientOps s ops w) = Val es /\
    fst (runClientOps (csw_stream s) ops w) = Val es /\
    transport (snd (runClientOps s ops w)) =
      transport (snd (runClientOps (csw_stream s) ops w)).
Proof.
  intros Hlive.
  destruct (raw_client_ops_run (csw_stream s) ops w) as (es0 & Hlen & Hraw).
  pose proof (Hraw w eq_refl) as Hraw1.
  destruct (csw_span s) as [p|] eqn:Hs.
  - destruct (Hlive p eq_refl) as [sp Hp].
    destruct (client_wrapper_ops_run s p ops Hs w sp Hp)
      as (es & sp' & Hw & Hr & Ht & _).
    exists es. rewrite Hraw1 in Hr. cbn [fst] in Hr. injection Hr as ->.
    split; [done|]. split; [done|]. split; [by rewrite Hraw1|done].
  - exists es0. rewrite (spanless_client_wrapper_run _ _ Hs).
    split; [done|]. by rewrite Hraw1.
Qed.

(** X2: on a client wrapper whose span [p] is open, a sequence of calls makes
    one call of [Finish] on [p] for every [CloseSend] and for every
    [SendMsg] or [RecvMsg] that returned an error, and no other; [p] is
    reported once if there was such a call and not at all otherwise, and it
    is finished exactly if there was one. No other span and no bag
    changes. *)
Theorem client_wrapper_finish_calls s p sp ops w :
  csw_span s = Some p ->
  spans w !! p = Some sp ->
  finished sp = false ->
  exists es sp',
    fst (runClientOps s ops w) = Val es /\
    history (snd (runClientOps s ops w)) =
      history w ++ replicate (finishingCalls ops es) (EvFinish p) /\
    reported (snd (runClientOps s ops w)) =
      match finishingCalls ops es with
      | O => reported w
      | S _ => reported w ++ [p]
      end /\
    spans (snd (runClientOps s ops w)) !! p = Some sp' /\
    finished sp' = match finishingCalls ops es with O => false | S _ => true end /\
    bags (snd (runClientOps s ops w)) = bags w /\
    (forall p', p' <> p ->
       spans (snd (runClientOps s ops w)) !! p' = spans w !! p').
Proof.
  intros Hs Hp Hopen.
  destruct (client_wrapper_ops_run s p ops Hs w sp Hp)
    as (es & sp' & Hw & _ & _ & Hh & Hrep & Hb & Hsp & Hf & Hoth).
  rewrite Hopen in Hrep, Hf. exists es, sp'. done.
Qed.

End ClientWrapperProperties.

(** ** Sequences of calls on a server wrapper *)

Section ServerSequences.
Context {T : Type}.
Implicit Types (w : World T) (p q : ptr) (s : ServerStreamWrapper T).

Lemma raw_server_op_step (ss : ServerStream T) op w :
  runServerOp ss op w =
    (Val (serverAnswer ss op (transport w)),
     set_transport (snd (serverCall ss op (transport w))) w).
Proof. destruct op; cbn; by rewrite forward_step. Qed.

Lemma server_op_step s op w q sp :
  ssw_span s = Some q -> spans w !! q = Some sp ->
  runServerOp s op w =
    (Val (serverAnswer (ssw_stream s) op (transport w)),
     match serverAnswer (ssw_stream s) op (transport w) with
     | Some _ => set_transport (snd (serverCall (ssw_stream s) op (transport w)))
                   (finishWorld q sp w)
     | None => set_transport (snd (serverCall (ssw_stream s) op (transport w))) w
     end).
Proof.
  intros Hs Hq. unfold serverAnswer.
  destruct op as [m|];
    cbn [serverCall runServerOp SendMsg RecvMsg ServerStreamWrapper_Stream].
  - rewrite (ServerStreamWrapper_SendMsg_step _ _ _ _ _ Hs Hq).
    by destruct (fst (ssSendMsg (ssw_stream s) m (transport w))).
  - rewrite (ServerStreamWrapper_RecvMsg_step _ _ _ _ Hs Hq).
    by destruct (fst (ssRecvMsg (ssw_stream s) (transport w))).
Qed.

Lemma spanless_server_op_step s op w :
  ssw_span s = None ->
  runServerOp s op w =
    (Val (serverAnswer (ssw_stream s) op (transport w)),
     set_transport (snd (serverCall (ssw_stream s) op (transport w))) w).
Proof.
  intros Hs. unfold serverAnswer.
  destruct op as [m|];
    cbn [serverCall runServerOp SendMsg RecvMsg ServerStreamWrapper_Stream].
  - unfold ServerStreamWrapper_SendMsg, bind, ret. rewrite Hs.
    cbn [SendMsg ServerStream_Stream]. rewrite forward_step.
    by destruct (fst (ssSendMsg (ssw_stream s) m (transport w))).
  - unfold ServerStreamWrapper_RecvMsg, bind, ret. rewrite Hs.
    cbn [RecvMsg ServerStream_Stream]. rewrite forward_step.
    by destruct (fst (ssRecvMsg (ssw_stream s) (transport w))).
Qed.

(** One call on a server wrapper: it does not panic, it returns what the
    stream returns, it moves the outside world as the stream does, and the
    spans of the store stay in the store. *)
Lemma server_wrapper_op s op w :
  (forall q, ssw_span s = Some q -> is_Some (spans w !! q)) ->
  exists w1,
    runServerOp s op w = (Val (serverAnswer (ssw_stream s) op (transport w)), w1) /\
    transport w1 = snd (serverCall (ssw_stream s) op (transport w)) /\
    bags w1 = bags w /\
    (forall q, is_Some (spans w !! q) -> is_Some (spans w1 !! q)).
Proof.
  intros Hlive. destruct (ssw_span s) as [q|] eqn:Hs.
  - destruct (Hlive q eq_refl) as [sp Hq].
    rewrite (server_op_step _ _ _ _ _ Hs Hq). eexists. split; [done|].
    destruct (serverAnswer (ssw_stream s) op (transport w)); cbn; [|done].
    split; [done|]. split; [done|]. intros q0 Hq0.
    destruct (decide (q = q0)) as [->|Hne].
    + rewrite lookup_insert_eq. by eexists.
    + by rewrite lookup_insert_ne.
  - rewrite (spanless_server_op_step _ _ _ Hs). eexists. done.
Qed.

Lemma runServerOps_cons {S} `{Stream T S} (x : S) op rest w e w1 es w2 :
  runServerOp x op w = (Val e, w1) ->
  runServerOps x rest w1 = (Val es, w2) ->
  runServerOps x (op :: rest) w = (Val (e :: es), w2).
Proof. intros H1 H2. cbn. unfold bind, ret. by rewrite H1, H2. Qed.

(** What a sequence of calls on a server wrapper with span [q] comes to. *)
Lemma server_wrapper_ops_run s q ops :
  ssw_span s = Some q ->
  forall w sp, spans w !! q = Some sp ->
  exists es sp',
    fst (runServerOps s ops w) = Val es /\
    history (snd (runServerOps s ops w)) =
      history w ++ replicate (failures es) (EvFinish q) /\
    reported (snd (runServerOps s ops w)) =
      (if finished sp then reported w
       else match failures es with
            | O => reported w
            | S _ => reported w ++ [q]
            end) /\
    spans (snd (runServerOps s ops w)) !! q = Some sp' /\
    finished sp' = (finished sp ||
                    match failures es with O => false | S _ => true end).
Proof.
  intros Hs. induction ops as [|op rest IH]; intros w sp Hq.
  - exists [], sp. cbn. rewrite app_nil_r, orb_false_r.
    by destruct (finished sp).
  - pose proof (server_op_step _ op _ _ _ Hs Hq) as E1.
    set (e := serverAnswer (ssw_stream s) op (transport w)) in *.
    set (t1 := snd (serverCall (ssw_stream s) op (transport w))) in *.
    destruct e as [err|] eqn:He.
    + destruct (IH (set_transport t1 (finishWorld q sp w))
                  (mkSpan (trace sp) (span sp) (labels sp) true))
        as (es & sp' & Hw & Hh & Hrep & Hsp & Hf).
      { cbn. apply lookup_insert_eq. }
      destruct (runServerOps s rest (set_transport t1 (finishWorld q sp w)))
        as [r w2] eqn:Erun. cbn [fst snd] in *. subst r.
      rewrite (runServerOps_cons _ _ _ _ _ _ _ _ E1 Erun). cbn [fst snd].
      exists (Some err :: es), sp'. cbn [failures].
      split; [done|].
      split; [rewrite Hh; cbn; by rewrite <- app_assoc|].
      split; [rewrite Hrep; cbn; by destruct (finished sp)|].
      split; [done|]. rewrite Hf. cbn. by rewrite orb_true_r.
    + destruct (IH (set_transport t1 w) sp)
        as (es & sp' & Hw & Hh & Hrep & Hsp & Hf); [done|].
      destruct (runServerOps s rest (set_transport t1 w)) as [r w2] eqn:Erun.
      cbn [fst snd] in *. subst r.
      rewrite (runServerOps_cons _ _ _ _ _ _ _ _ E1 Erun).
      exists (None :: es), sp'. done.
Qed.

(** A handler on a server wrapper and on the wrapped stream, given the
    wrapper's context: started in worlds with the same outside state, the
    two runs return the same and leave the same outside state. *)
Lemma handler_on_wrapper s handler :
  forall w w0,
    transport w = transport w0 ->
    (forall q, ssw_span s = Some q -> is_Some (spans w !! q)) ->
    fst (runHandler s handler w) =
      fst (runHandler (withContext (ssw_stream s) (ssw_context s)) handler w0) /\
    transport (snd (runHandler s handler w)) =
      transport (snd (runHandler (withContext (ssw_stream s) (ssw_context s))
                        handler w0)) /\
    bags (snd (runHandler s handler w)) = bags w /\
    (forall q, is_Some (spans w !! q) ->
       is_Some (spans (snd (runHandler s handler w)) !! q)).
Proof.
  induction handler as [err| |m k IH|k IH|k IH]; intros w w0 Ht Hlive.
  - done.
  - done.
  - destruct (server_wrapper_op s (OpSend m) w Hlive) as (w1 & E1 & Ht1 & Hb1 & Hl1).
    cbn [runHandler]. unfold bind.
    change (SendMsg s m w) with (runServerOp s (OpSend m) w). rewrite E1.
    change (SendMsg (withContext (ssw_stream s) (ssw_context s)) m w0)
      with (runServerOp (withContext (ssw_stream s) (ssw_context s)) (OpSend m) w0).
    rewrite raw_server_op_step. unfold serverAnswer. cbn [serverCall withContext
      ssSendMsg]. rewrite <- Ht.
    destruct (IH (fst (ssSendMsg (ssw_stream s) m (transport w))) w1
                (set_transport (snd (ssSendMsg (ssw_stream s) m (transport w))) w0))
      as (Hr & Htr & Hb & Hl); [by rewrite Ht1|by intros q Hq; apply Hl1, Hlive|].
    split; [done|]. split; [done|]. split; [by rewrite Hb|].
    intros q Hq. by apply Hl, Hl1.
  - destruct (server_wrapper_op s OpRecv w Hlive) as (w1 & E1 & Ht1 & Hb1 & Hl1).
    cbn [runHandler]. unfold bind.
    change (RecvMsg s w) with (runServerOp s OpRecv w). rewrite E1.
    change (RecvMsg (withContext (ssw_stream s) (ssw_context s)) w0)
      with (runServerOp (withContext (ssw_stream s) (ssw_context s)) OpRecv w0).
    rewrite raw_server_op_step. unfold serverAnswer. cbn [serverCall withContext
      ssRecvMsg]. rewrite <- Ht.
    destruct (IH (fst (ssRecvMsg (ssw_stream s) (transport w))) w1
                (set_transport (snd (ssRecvMsg (ssw_stream s) (transport w))) w0))
      as (Hr & Htr & Hb & Hl); [by rewrite Ht1|by intros q Hq; apply Hl1, Hlive|].
    split; [done|]. split; [done|]. split; [by rewrite Hb|].
    intros q Hq. by apply Hl, Hl1.
  - cbn [runHandler]. by apply IH.
Qed.

End ServerSequences.

Section ServerWrapperProperties.
Context {T : Type}.
Implicit Types (w : World T) (p q : ptr) (ctx : Context).

(** A handler on the stream of the transport: what it returns and where
    it leaves the outside world depends on the outside world alone, and
    nothing else changes. *)
Lemma raw_handler_run (ss : ServerStream T) handler :
  forall w, exists r t',
    forall w0, transport w0 = transport w ->
      runHandler ss handler w0 = (r, set_transport t' w0).
Proof.
  induction handler as [err| |m k IH|k IH|k IH]; intros w.
  - exists (Val err), (transport w). intros w0 <-. by destruct w0.
  - exists Panic, (transport w). intros w0 <-. by destruct w0.
  - destruct (IH (fst (ssSendMsg ss m (transport w)))
                (set_transport (snd (ssSendMsg ss m (transport w))) w))
      as (r & t' & Hrun).
    exists r, t'. intros w0 Ht. cbn [runHandler SendMsg ServerStream_Stream].
    unfold bind. rewrite forward_step, Ht. by rewrite Hrun.
  - destruct (IH (fst (ssRecvMsg ss (transport w)))
                (set_transport (snd (ssRecvMsg ss (transport w))) w))
      as (r & t' & Hrun).
    exists r, t'. intros w0 Ht. cbn [runHandler RecvMsg ServerStream_Stream].
    unfold bind. rewrite forward_step, Ht. by rewrite Hrun.
  - destruct (IH (StreamContext ss) w) as (r & t' & Hrun).
    exists r, t'. intros w0 Ht. cbn [runHandler]. by apply Hrun.
Qed.

(** X4: a server wrapper is transparent to the handler but for the context:
    a handler returns on the wrapper what it returns on the wrapped stream
    when that stream exposes the wrapper's context, and it leaves the same
    outside world. *)
Theorem server_wrapper_is_transparent (s : ServerStreamWrapper T) handler w :
  (forall q, ssw_span s = Some q -> is_Some (spans w !! q)) ->
  fst (runHandler s handler w) =
    fst (runHandler (withContext (ssw_stream s) (ssw_context s)) handler w) /\
  transport (snd (runHandler s handler w)) =
    transport (snd (runHandler (withContext (ssw_stream s) (ssw_context s))
                      handler w)).
Proof.
  intros Hlive.
  destruct (handler_on_wrapper s handler w w eq_refl Hlive) as (Hr & Ht & _ & _).
  done.
Qed.

(** X5: on a server wrapper whose span [q] is open, a sequence of sends and
    receives makes one call of [Finish] on [q] for every call that returned
    an error, and no other; [q] is reported once if a call failed and not
    at all otherwise. *)
Theorem server_wrapper_finish_calls (s : ServerStreamWrapper T) q sp ops w :
  ssw_span s = Some q ->
  spans w !! q = Some sp ->
  finished sp = false ->
  exists es sp',
    fst (runServerOps s ops w) = Val es /\
    history (snd (runServerOps s ops w)) =
      history w ++ replicate (failures es) (EvFinish q) /\
    reported (snd (runServerOps s ops w)) =
      match failures es with
      | O => reported w
      | S _ => reported w ++ [q]
      end /\
    spans (snd (runServerOps s ops w)) !! q = Some sp' /\
    finished sp' = match failures es with O => false | S _ => true end.
Proof.
  intros Hs Hq Hopen.
  destruct (server_wrapper_ops_run s q ops Hs w sp Hq)
    as (es & sp' & Hw & Hh & Hrep & Hsp & Hf).
  rewrite Hopen in Hrep, Hf. exists es, sp'. done.
Qed.

(** X6: with the trace header on the incoming metadata, the streaming server
    interceptor returns what the handler returns on the stream it was given
    when that stream exposes the context with the new span, panics exactly
    if the handler does, and leaves the outside world as that run does. *)
Theorem stream_server_returns_handler_result tc w (ss : ServerStream T) handler vs :
  incomingHeader (ssContext ss) w = Some vs ->
  exists q,
    spans w !! q = None /\
    fst (GRPCStreamServerInterceptor tc ss handler w) =
      fst (runHandler (withContext ss (NewContext (ssContext ss) (Some q)))
             handler w) /\
    transport (snd (GRPCStreamServerInterceptor tc ss handler w)) =
      transport (snd (runHandler (withContext ss (NewContext (ssContext ss) (Some q)))
                        handler w)) /\
    bags (snd (GRPCStreamServerInterceptor tc ss handler w)) = bags w.
Proof.
  intros Hh. exists (fresh (dom (spans w))). split; [apply fresh_span|].
  set (q := fresh (dom (spans w))).
  destruct (decode (String.concat EmptyString vs)) as [[tid parent] opts] eqn:Hd.
  unfold GRPCStreamServerInterceptor, bind.
  cbn [StreamContext ServerStream_Stream].
  rewrite (index_incoming _ _ (incomingHeader_live _ _ _ Hh)), Hh.
  rewrite (SpanFromHeader_step _ _ _ _ _ _ _ Hd). fold q.
  unfold defer, callStreamHandler, bind, modify.
  cbn [StreamContext ServerStreamWrapper_Stream ServerStreamWrapper_Context ssw_context].
  set (ctx' := NewContext (ssContext ss) (Some q)).
  set (wr := mkServerStreamWrapper ss (Some q) ctx').
  match goal with
  | |- context [runHandler wr handler ?w0] => set (w2 := w0)
  end.
  destruct (handler_on_wrapper wr handler w2 w eq_refl) as (Hr & Ht & Hb & Hl).
  { intros q0 [= <-]. subst w2. cbn. rewrite lookup_insert_eq. by eexists. }
  destruct (Hl q) as [sp3 Hq3].
  { subst w2. cbn. rewrite lookup_insert_eq. by eexists. }
  cbn [wr ssw_stream ssw_context] in Hr, Ht.
  destruct (runHandler wr handler w2) as [r w3]. cbn [fst snd] in *.
  rewrite (Finish_step _ _ _ Hq3). cbn [fst snd finishWorld transport bags].
  done.
Qed.

End ServerWrapperProperties.

(** ** The server interceptors, remaining cases *)

Section ServerInterceptors.
Context {T : Type}.
Implicit Types (w : World T) (p q : ptr) (ctx : Context).

(** X7: without the trace header on the incoming metadata the streaming
    server interceptor hands the handler the stream it was given, unwrapped:
    it returns what the handler returns on that stream, panics exactly if
    the handler does, creates and reports no span, never calls [Finish],
    and leaves the bags alone. *)
Theorem stream_server_without_header_passes_through tc w (ss : ServerStream T)
    handler :
  liveContext (ssContext ss) w ->
  incomingHeader (ssContext ss) w = None ->
  fst (GRPCStreamServerInterceptor tc ss handler w) = fst (runHandler ss handler w) /\
  transport (snd (GRPCStreamServerInterceptor tc ss handler w)) =
    transport (snd (runHandler ss handler w)) /\
  history (snd (GRPCStreamServerInterceptor tc ss handler w)) =
    history w ++ [EvStreamHandler false (ssContext ss)] /\
  spans (snd (GRPCStreamServerInterceptor tc ss handler w)) = spans w /\
  reported (snd (GRPCStreamServerInterceptor tc ss handler w)) = reported w /\
  bags (snd (GRPCStreamServerInterceptor tc ss handler w)) = bags w.
Proof.
  intros (_ & _ & Hin) Hh. unfold GRPCStreamServerInterceptor, bind.
  cbn [StreamContext ServerStream_Stream].
  rewrite (index_incoming _ _ Hin), Hh.
  unfold callStreamHandler, bind, modify.
  cbn [StreamContext ServerStream_Stream].
  destruct (raw_handler_run ss handler w) as (r & t' & Hrun).
  rewrite (Hrun w eq_refl), (Hrun (record _ w) eq_refl). done.
Qed.

(** X8: with the trace header on the incoming metadata, the unary server
    interceptor calls the handler once, on the context it was given with a
    new span [q] installed; it returns what the handler returns and panics
    exactly if the handler does; either way [q] is finished and reported
    once, by the one [Finish] that follows the handler; every other span
    and every bag is as before. *)
Theorem unary_server_with_header_finishes_span tc w ctx req
    (handler : UnaryHandler T) vs :
  incomingHeader ctx w = Some vs ->
  exists q sp,
    spans w !! q = None /\
    fst (GRPCServerInterceptor tc ctx req handler w) =
      fst (handler (NewContext ctx (Some q)) req (transport w)) /\
    transport (snd (GRPCServerInterceptor tc ctx req handler w)) =
      snd (handler (NewContext ctx (Some q)) req (transport w)) /\
    history (snd (GRPCServerInterceptor tc ctx req handler w)) =
      history w ++ [EvHandler (NewContext ctx (Some q)); EvFinish q] /\
    spans (snd (GRPCServerInterceptor tc ctx req handler w)) !! q = Some sp /\
    finished sp = true /\
    reported (snd (GRPCServerInterceptor tc ctx req handler w)) = reported w ++ [q] /\
    bags (snd (GRPCServerInterceptor tc ctx req handler w)) = bags w /\
    (forall p, p <> q ->
       spans (snd (GRPCServerInterceptor tc ctx req handler w)) !! p = spans w !! p).
Proof.
  intros Hh.
  destruct (decode (String.concat EmptyString vs)) as [[tid parent] opts] eqn:Hd.
  rewrite (unary_server_traced _ _ _ _ _ _ _ _ _ Hh Hd).
  eexists _, _. cbn [fst snd spans bags reported history transport].
  split; [apply fresh_span|]. split; [done|]. split; [done|]. split; [done|].
  split; [apply lookup_insert_eq|]. split; [done|]. split; [done|].
  split; [done|]. intros p Hne. by rewrite lookup_insert_ne.
Qed.

End ServerInterceptors.

(** ** The client interceptors, remaining cases *)

Section ClientInterceptors.
Context {T : Type}.
Implicit Types (w : World T) (p c l : ptr) (ctx : Context).

(** X9: on a unary client call with an ambient span, whatever the invoker
    does (returns no error, returns an error, panics), the interceptor
    returns what the invoker returned or panics with it, and by then the
    child [c] is finished and reported once, by the one [Finish] that
    follows the invoker. The ambient span and every other span of the store
    are as before: the ambient span is not finished and gets no label. *)
Theorem unary_client_finishes_child_once w ctx method req (inv : UnaryInvoker T) p S :
  FromContext ctx = Some p ->
  spans w !! p = Some S ->
  liveContext ctx w ->
  exists ctx' md c child,
    spans w !! c = None /\
    fst (grpcUnaryInterceptor ctx method req inv w) =
      fst (inv ctx' md method req (transport w)) /\
    transport (snd (grpcUnaryInterceptor ctx method req inv w)) =
      snd (inv ctx' md method req (transport w)) /\
    history (snd (grpcUnaryInterceptor ctx method req inv w)) =
      history w ++ [EvInvoke ctx' md; EvFinish c] /\
    spans (snd (grpcUnaryInterceptor ctx method req inv w)) !! c = Some child /\
    finished child = true /\
    reported (snd (grpcUnaryInterceptor ctx method req inv w)) = reported w ++ [c] /\
    spans (snd (grpcUnaryInterceptor ctx method req inv w)) !! p = Some S /\
    (forall p', p' <> c ->
       spans (snd (grpcUnaryInterceptor ctx method req inv w)) !! p' = spans w !! p').
Proof.
  intros Hctx Hp (_ & Hout & _).
  destruct (inv (NewOutgoingContext ctx (fresh (dom (bags w))))
              (Some (<[grpcMetadataKey :=
                        [spanHeader (traceID (trace S)) (SpanId (span S))
                                    (globalOptions (trace S))]]> (baseBag ctx w)))
              method req (transport w)) as [r t'] eqn:E.
  rewrite (unary_traced _ _ _ _ _ _ _ _ _ Hctx Hp Hout E).
  eexists _, _, _, _. cbn [fst snd spans history reported transport].
  assert (Hne : p <> fresh (dom (spans w))).
  { intros ->. rewrite fresh_span in Hp. done. }
  split; [apply fresh_span|]. rewrite E. cbn [fst snd].
  split; [done|]. split; [done|]. split; [done|].
  split; [apply lookup_insert_eq|]. split; [done|]. split; [done|].
  split; [by rewrite lookup_insert_ne|].
  intros p' Hp'. by rewrite lookup_insert_ne.
Qed.

(** X10: on a client call (unary or streaming) with an ambient span and no
    outgoing bag on the context, the bag handed on is a new one whose only
    entry is the trace header, with one value; the bags of the store are as
    before. *)
Theorem client_interceptors_create_bag w ctx method req
    (inv : UnaryInvoker T) (streamer : Streamer T) p S :
  FromContext ctx = Some p ->
  spans w !! p = Some S ->
  FromOutgoingContext ctx = None ->
  exists l' h,
    bags w !! l' = None /\
    (bags (snd (grpcUnaryInterceptor ctx method req inv w)) =
       <[l' := {[ grpcMetadataKey := [h] ]}]> (bags w) /\
     exists c,
       history (snd (grpcUnaryInterceptor ctx method req inv w)) =
         history w ++ [EvInvoke (NewOutgoingContext ctx l')
                         (Some {[ grpcMetadataKey := [h] ]});
                       EvFinish c]) /\
    (bags (snd (grpcStreamClientInterceptor ctx method streamer w)) =
       <[l' := {[ grpcMetadataKey := [h] ]}]> (bags w) /\
     exists tail,
       history (snd (grpcStreamClientInterceptor ctx method streamer w)) =
         history w ++ EvStreamer (NewOutgoingContext ctx l')
                        (Some {[ grpcMetadataKey := [h] ]}) :: tail).
Proof.
  intros Hctx Hp Hl. unfold FromOutgoingContext in Hl.
  assert (Hout : forall l0, ctxOutgoing ctx = Some l0 -> is_Some (bags w !! l0)).
  { intros l0 H0. by rewrite Hl in H0. }
  assert (Hbase : baseBag ctx w = ∅) by (unfold baseBag; by rewrite Hl).
  exists (fresh (dom (bags w))),
    (spanHeader (traceID (trace S)) (SpanId (span S)) (globalOptions (trace S))).
  split; [apply fresh_bag|]. split.
  - destruct (inv (NewOutgoingContext ctx (fresh (dom (bags w))))
                (Some (<[grpcMetadataKey :=
                          [spanHeader (traceID (trace S)) (SpanId (span S))
                                      (globalOptions (trace S))]]> (baseBag ctx w)))
                method req (transport w)) as [r t'] eqn:E.
    rewrite (unary_traced _ _ _ _ _ _ _ _ _ Hctx Hp Hout E), Hbase.
    cbn [snd bags history]. rewrite insert_empty. split; [done|]. by eexists.
  - destruct (streamer (NewOutgoingContext ctx (fresh (dom (bags w))))
                (Some (<[grpcMetadataKey :=
                          [spanHeader (traceID (trace S)) (SpanId (span S))
                                      (globalOptions (trace S))]]> (baseBag ctx w)))
                method (transport w)) as [r t'] eqn:E.
    rewrite (stream_traced _ _ _ _ _ _ _ _ Hctx Hp Hout E), Hbase.
    rewrite insert_empty.
    destruct r as [[cs|err]|]; cbn [snd bags history]; (split; [done|]); by eexists.
Qed.

End ClientInterceptors.

Section StreamEstablishment.
Context {T : Type}.
Implicit Types (w : World T) (p c l : ptr) (ctx : Context).

(** The arguments of the streamer on a call with ambient span [S]. *)
Lemma stream_traced_at w ctx method (streamer : Streamer T) p S :
  FromContext ctx = Some p ->
  spans w !! p = Some S ->
  (forall l, ctxOutgoing ctx = Some l -> is_Some (bags w !! l)) ->
  exists ctx' md l' md',
    grpcStreamClientInterceptor ctx method streamer w =
      match fst (streamer ctx' md method (transport w)) with
      | Val (inr err) =>
          (Val (None, Some err),
           mkWorld (<[fresh (dom (spans w)) :=
                       mkSpan (trace S)
                         (mkTraceSpan method (idSupply w) (SpanId (span S))) ∅ true]>
                      (spans w))
                   (<[l' := md']> (bags w)) (reported w ++ [fresh (dom (spans w))])
                   ((idSupply w + 1) mod 2 ^ 64)
                   (snd (streamer ctx' md method (transport w)))
                   (history w ++ [EvStreamer ctx' md; EvFinish (fresh (dom (spans w)))]))
      | Val (inl cs) =>
          (Val (Some (mkClientStreamWrapper cs (Some (fresh (dom (spans w))))), None),
           mkWorld (<[fresh (dom (spans w)) :=
                       mkSpan (trace S)
                         (mkTraceSpan method (idSupply w) (SpanId (span S))) ∅ false]>
                      (spans w))
                   (<[l' := md']> (bags w)) (reported w)
                   ((idSupply w + 1) mod 2 ^ 64)
                   (snd (streamer ctx' md method (transport w)))
                   (history w ++ [EvStreamer ctx' md]))
      | Panic =>
          (Panic,
           mkWorld (<[fresh (dom (spans w)) :=
                       mkSpan (trace S)
                         (mkTraceSpan method (idSupply w) (SpanId (span S))) ∅ false]>
                      (spans w))
                   (<[l' := md']> (bags w)) (reported w)
                   ((idSupply w + 1) mod 2 ^ 64)
                   (snd (streamer ctx' md method (transport w)))
                   (history w ++ [EvStreamer ctx' md]))
      end.
Proof.
  intros Hctx Hp Hout.
  destruct (streamer (NewOutgoingContext ctx (fresh (dom (bags w))))
              (Some (<[grpcMetadataKey :=
                        [spanHeader (traceID (trace S)) (SpanId (span S))
                                    (globalOptions (trace S))]]> (baseBag ctx w)))
              method (transport w)) as [r t'] eqn:E.
  eexists _, _, _, _.
  rewrite (stream_traced _ _ _ _ _ _ _ _ Hctx Hp Hout E), E. reflexivity.
Qed.

(** X11: on a streaming client call with an ambient span [S], when the
    streamer returns a stream, the interceptor returns a wrapper around that
    very stream, bound to the child of [S], and no error; the child is then
    still open: it is not reported and [Finish] has not been called. *)
Theorem stream_client_success_returns_open_wrapper w ctx method
    (streamer : Streamer T) p S :
  FromContext ctx = Some p ->
  spans w !! p = Some S ->
  liveContext ctx w ->
  exists ctx' md c,
    spans w !! c = None /\
    (exists tail,
       history (snd (grpcStreamClientInterceptor ctx method streamer w)) =
         history w ++ EvStreamer ctx' md :: tail) /\
    forall cs, fst (streamer ctx' md method (transport w)) = Val (inl cs) ->
      fst (grpcStreamClientInterceptor ctx method streamer w) =
        Val (Some (mkClientStreamWrapper cs (Some c)), None) /\
      history (snd (grpcStreamClientInterceptor ctx method streamer w)) =
        history w ++ [EvStreamer ctx' md] /\
      reported (snd (grpcStreamClientInterceptor ctx method streamer w)) =
        reported w /\
      exists child,
        spans (snd (grpcStreamClientInterceptor ctx method streamer w)) !! c
          = Some child /\
        Name (span child) = method /\
        ParentSpanId (span child) = SpanId (span S) /\
        finished child = false.
Proof.
  intros Hctx Hp (_ & Hout & _).
  destruct (stream_traced_at w ctx method streamer p S Hctx Hp Hout)
    as (ctx' & md & l' & md' & Erun).
  exists ctx', md, (fresh (dom (spans w))). rewrite Erun.
  split; [apply fresh_span|]. split.
  - destruct (fst (streamer ctx' md method (transport w))) as [[cs|err]|];
      cbn [snd history]; by eexists.
  - intros cs ->. cbn [fst snd history reported spans].
    split; [done|]. split; [done|]. split; [done|].
    eexists. split; [apply lookup_insert_eq|]. done.
Qed.

(** X12: on a streaming client call with an ambient span [S], when the
    streamer panics, the interceptor panics with it and [Finish] is not
    called: the child of [S] stays in the store, open and unreported. *)
Theorem stream_client_panic_leaves_child_open w ctx method
    (streamer : Streamer T) p S :
  FromContext ctx = Some p ->
  spans w !! p = Some S ->
  liveContext ctx w ->
  exists ctx' md c,
    spans w !! c = None /\
    (exists tail,
       history (snd (grpcStreamClientInterceptor ctx method streamer w)) =
         history w ++ EvStreamer ctx' md :: tail) /\
    (fst (streamer ctx' md method (transport w)) = Panic ->
      fst (grpcStreamClientInterceptor ctx method streamer w) = Panic /\
      history (snd (grpcStreamClientInterceptor ctx method streamer w)) =
        history w ++ [EvStreamer ctx' md] /\
      reported (snd (grpcStreamClientInterceptor ctx method streamer w)) =
        reported w /\
      exists child,
        spans (snd (grpcStreamClientInterceptor ctx method streamer w)) !! c
          = Some child /\
        ParentSpanId (span child) = SpanId (span S) /\
        finished child = false).
Proof.
  intros Hctx Hp (_ & Hout & _).
  destruct (stream_traced_at w ctx method streamer p S Hctx Hp Hout)
    as (ctx' & md & l' & md' & Erun).
  exists ctx', md, (fresh (dom (spans w))). rewrite Erun.
  split; [apply fresh_span|]. split.
  - destruct (fst (streamer ctx' md method (transport w))) as [[cs|err]|];
      cbn [snd history]; by eexists.
  - intros ->. cbn [fst snd history reported spans].
    split; [done|]. split; [done|]. split; [done|].
    eexists. split; [apply lookup_insert_eq|]. done.
Qed.

(** X13: on a streaming client call without ambient span the interceptor calls
    the streamer once, with the context it was given. A stream comes back
    in a wrapper without span, an error comes back as it is with no
    wrapper, a panic goes on; the stores of spans and bags and the reports
    are as before and [Finish] is not called. *)
Theorem stream_client_without_span_passes_through w ctx method
    (streamer : Streamer T) :
  FromContext ctx = None ->
  fst (grpcStreamClientInterceptor ctx method streamer w) =
    match fst (streamer ctx (outgoingMD ctx w) method (transport w)) with
    | Val (inl cs) => Val (Some (mkClientStreamWrapper cs None), None)
    | Val (inr err) => Val (None, Some err)
    | Panic => Panic
    end /\
  history (snd (grpcStreamClientInterceptor ctx method streamer w)) =
    history w ++ [EvStreamer ctx (outgoingMD ctx w)] /\
  spans (snd (grpcStreamClientInterceptor ctx method streamer w)) = spans w /\
  bags (snd (grpcStreamClientInterceptor ctx method streamer w)) = bags w /\
  reported (snd (grpcStreamClientInterceptor ctx method streamer w)) = reported w.
Proof.
  intros Hctx.
  destruct (streamer ctx (outgoingMD ctx w) method (transport w)) as [r t'] eqn:E.
  rewrite (stream_untraced _ _ _ _ _ _ Hctx E). cbn [fst snd].
  split; [by destruct r as [[cs|err]|]|]. done.
Qed.

(** X14: a stream established by the interceptor on a call with an ambient span:
    whatever calls its user then makes on the wrapper that came back, the
    child span is reported once if one of them is a [CloseSend] or a failed
    [SendMsg] or [RecvMsg] and not at all otherwise, and [Finish] is called
    on the child once for each such call. *)
Theorem established_stream_reports_child_once w ctx method
    (streamer : Streamer T) p S sw ops :
  FromContext ctx = Some p ->
  spans w !! p = Some S ->
  liveContext ctx w ->
  fst (grpcStreamClientInterceptor ctx method streamer w) = Val (Some sw, None) ->
  exists c es,
    spans w !! c = None /\
    csw_span sw = Some c /\
    fst (runClientOps sw ops (snd (grpcStreamClientInterceptor ctx method streamer w)))
      = Val es /\
    history (snd (runClientOps sw ops
                    (snd (grpcStreamClientInterceptor ctx method streamer w)))) =
      history (snd (grpcStreamClientInterceptor ctx method streamer w)) ++
        replicate (finishingCalls ops es) (EvFinish c) /\
    reported (snd (runClientOps sw ops
                     (snd (grpcStreamClientInterceptor ctx method streamer w)))) =
      match finishingCalls ops es with
      | O => reported w
      | S _ => reported w ++ [c]
      end.
Proof.
  intros Hctx Hp (_ & Hout & _).
  destruct (stream_traced_at w ctx method streamer p S Hctx Hp Hout)
    as (ctx' & md & l' & md' & Erun).
  rewrite Erun.
  destruct (fst (streamer ctx' md method (transport w))) as [[cs|err]|];
    cbn [fst snd]; intros [= <-].
  match goal with
  | |- context [runClientOps ?s0 ops ?w0] =>
      destruct (client_wrapper_ops_run s0 (fresh (dom (spans w))) ops eq_refl w0
                  (mkSpan (trace S)
                     (mkTraceSpan method (idSupply w) (SpanId (span S))) ∅ false))
        as (es & sp' & Hw & _ & _ & Hh & Hrep & _)
  end.
  { cbn. apply lookup_insert_eq. }
  exists (fresh (dom (spans w))), es.
  split; [apply fresh_span|]. split; [done|]. split; [exact Hw|].
  split; [exact Hh|]. exact Hrep.
Qed.

End StreamEstablishment.

(** ** The further properties at the sample inputs *)

Lemma client_wrapper_without_span_is_the_stream_witness :
  csw_span spanlessWrapper = None /\
  runClientOps spanlessWrapper [OpSendMsg "a"; OpCloseSend] sampleWorld =
    runClientOps (csw_stream spanlessWrapper) [OpSendMsg "a"; OpCloseSend] sampleWorld /\
  spans (snd (runClientOps spanlessWrapper [OpSendMsg "a"; OpCloseSend] sampleWorld)) =
    spans sampleWorld /\
  reported (snd (runClientOps spanlessWrapper [OpSendMsg "a"; OpCloseSend] sampleWorld)) =
    reported sampleWorld /\
  history (snd (runClientOps spanlessWrapper [OpSendMsg "a"; OpCloseSend] sampleWorld)) =
    history sampleWorld.
Proof.
  split; [reflexivity|].
  exact (client_wrapper_without_span_is_the_stream spanlessWrapper
           [OpSendMsg "a"; OpCloseSend] sampleWorld eq_refl).
Defined.

Lemma endingWrapper_live :
  forall p, csw_span endingWrapper = Some p -> is_Some (spans sampleWorld !! p).
Proof. intros p [= <-]. eexists. reflexivity. Defined.

Lemma client_wrapper_is_transparent_witness :
  (forall p, csw_span endingWrapper = Some p -> is_Some (spans sampleWorld !! p)) /\
  exists es,
    length es = length [OpSendMsg "a"; OpRecvMsg; OpCloseSend] /\
    fst (runClientOps endingWrapper [OpSendMsg "a"; OpRecvMsg; OpCloseSend] sampleWorld)
      = Val es /\
    fst (runClientOps (csw_stream endingWrapper)
           [OpSendMsg "a"; OpRecvMsg; OpCloseSend] sampleWorld) = Val es /\
    transport (snd (runClientOps endingWrapper
                      [OpSendMsg "a"; OpRecvMsg; OpCloseSend] sampleWorld)) =
      transport (snd (runClientOps (csw_stream endingWrapper)
                        [OpSendMsg "a"; OpRecvMsg; OpCloseSend] sampleWorld)).
Proof.
  split; [exact endingWrapper_live|].
  exact (client_wrapper_is_transparent endingWrapper
           [OpSendMsg "a"; OpRecvMsg; OpCloseSend] sampleWorld endingWrapper_live).
Defined.

Lemma client_wrapper_finish_calls_witness :
  csw_span endingWrapper = Some 5%positive /\
  spans sampleWorld !! 5%positive = Some sampleSpan /\
  finished sampleSpan = false /\
  exists es sp',
    fst (runClientOps endingWrapper
           [OpSendMsg "a"; OpRecvMsg; OpCloseSend; OpRecvMsg] sampleWorld) = Val es /\
    history (snd (runClientOps endingWrapper
                    [OpSendMsg "a"; OpRecvMsg; OpCloseSend; OpRecvMsg] sampleWorld)) =
      history sampleWorld ++
        replicate (finishingCalls [OpSendMsg "a"; OpRecvMsg; OpCloseSend; OpRecvMsg] es)
          (EvFinish 5%positive) /\
    reported (snd (runClientOps endingWrapper
                     [OpSendMsg "a"; OpRecvMsg; OpCloseSend; OpRecvMsg] sampleWorld)) =
      match finishingCalls [OpSendMsg "a"; OpRecvMsg; OpCloseSend; OpRecvMsg] es with
      | O => reported sampleWorld
      | S _ => reported sampleWorld ++ [5%positive]
      end /\
    spans (snd (runClientOps endingWrapper
                  [OpSendMsg "a"; OpRecvMsg; OpCloseSend; OpRecvMsg] sampleWorld))
      !! 5%positive = Some sp' /\
    finished sp' =
      match finishingCalls [OpSendMsg "a"; OpRecvMsg; OpCloseSend; OpRecvMsg] es with
      | O => false
      | S _ => true
      end /\
    bags (snd (runClientOps endingWrapper
                 [OpSendMsg "a"; OpRecvMsg; OpCloseSend; OpRecvMsg] sampleWorld)) =
      bags sampleWorld /\
    (forall p', p' <> 5%positive ->
       spans (snd (runClientOps endingWrapper
                     [OpSendMsg "a"; OpRecvMsg; OpCloseSend; OpRecvMsg] sampleWorld))
         !! p' = spans sampleWorld !! p').
Proof.
  split; [reflexivity|]. split; [reflexivity|]. split; [reflexivity|].
  exact (client_wrapper_finish_calls endingWrapper 5%positive sampleSpan
           [OpSendMsg "a"; OpRecvMsg; OpCloseSend; OpRecvMsg] sampleWorld
           eq_refl eq_refl eq_refl).
Defined.

Lemma serverWrapper_live :
  forall q, ssw_span serverWrapper = Some q -> is_Some (spans sampleWorld !! q).
Proof. intros q [= <-]. eexists. reflexivity. Defined.

Lemma server_wrapper_is_transparent_witness :
  (forall q, ssw_span serverWrapper = Some q -> is_Some (spans sampleWorld !! q)) /\
  fst (runHandler serverWrapper echoLoop sampleWorld) =
    fst (runHandler (withContext (ssw_stream serverWrapper) (ssw_context serverWrapper))
           echoLoop sampleWorld) /\
  transport (snd (runHandler serverWrapper echoLoop sampleWorld)) =
    transport (snd (runHandler
                      (withContext (ssw_stream serverWrapper) (ssw_context serverWrapper))
                      echoLoop sampleWorld)).
Proof.
  split; [exact serverWrapper_live|].
  exact (server_wrapper_is_transparent serverWrapper echoLoop sampleWorld
           serverWrapper_live).
Defined.

Lemma server_wrapper_finish_calls_witness :
  ssw_span serverWrapper = Some 5%positive /\
  spans sampleWorld !! 5%positive = Some sampleSpan /\
  finished sampleSpan = false /\
  exists es sp',
    fst (runServerOps serverWrapper [OpRecv; OpSend "x"; OpRecv; OpRecv] sampleWorld)
      = Val es /\
    history (snd (runServerOps serverWrapper [OpRecv; OpSend "x"; OpRecv; OpRecv]
                    sampleWorld)) =
      history sampleWorld ++ replicate (failures es) (EvFinish 5%positive) /\
    reported (snd (runServerOps serverWrapper [OpRecv; OpSend "x"; OpRecv; OpRecv]
                     sampleWorld)) =
      match failures es with
      | O => reported sampleWorld
      | S _ => reported sampleWorld ++ [5%positive]
      end /\
    spans (snd (runServerOps serverWrapper [OpRecv; OpSend "x"; OpRecv; OpRecv]
                  sampleWorld)) !! 5%positive = Some sp' /\
    finished sp' = match failures es with O => false | S _ => true end.
Proof.
  split; [reflexivity|]. split; [reflexivity|]. split; [reflexivity|].
  exact (server_wrapper_finish_calls serverWrapper 5%positive sampleSpan
           [OpRecv; OpSend "x"; OpRecv; OpRecv] sampleWorld eq_refl eq_refl eq_refl).
Defined.

Lemma stream_server_returns_handler_result_witness :
  incomingHeader (ssContext tracedServerStream) serverWorld = Some ["abc/4"; "2;o=1"] /\
  exists q,
    spans serverWorld !! q = None /\
    fst (GRPCStreamServerInterceptor tt tracedServerStream echoLoop serverWorld) =
      fst (runHandler
             (withContext tracedServerStream
                (NewContext (ssContext tracedServerStream) (Some q)))
             echoLoop serverWorld) /\
    transport (snd (GRPCStreamServerInterceptor tt tracedServerStream echoLoop
                      serverWorld)) =
      transport (snd (runHandler
                        (withContext tracedServerStream
                           (NewContext (ssContext tracedServerStream) (Some q)))
                        echoLoop serverWorld)) /\
    bags (snd (GRPCStreamServerInterceptor tt tracedServerStream echoLoop serverWorld)) =
      bags serverWorld.
Proof.
  split; [reflexivity|].
  exact (stream_server_returns_handler_result tt serverWorld tracedServerStream
           echoLoop ["abc/4"; "2;o=1"] eq_refl).
Defined.

Lemma stream_server_without_header_passes_through_witness :
  liveContext (ssContext plainServerStream) sampleWorld /\
  incomingHeader (ssContext plainServerStream) sampleWorld = None /\
  fst (GRPCStreamServerInterceptor tt plainServerStream echoLoop sampleWorld) =
    fst (runHandler plainServerStream echoLoop sampleWorld) /\
  transport (snd (GRPCStreamServerInterceptor tt plainServerStream echoLoop sampleWorld)) =
    transport (snd (runHandler plainServerStream echoLoop sampleWorld)) /\
  history (snd (GRPCStreamServerInterceptor tt plainServerStream echoLoop sampleWorld)) =
    history sampleWorld ++ [EvStreamHandler false (ssContext plainServerStream)] /\
  spans (snd (GRPCStreamServerInterceptor tt plainServerStream echoLoop sampleWorld)) =
    spans sampleWorld /\
  reported (snd (GRPCStreamServerInterceptor tt plainServerStream echoLoop sampleWorld)) =
    reported sampleWorld /\
  bags (snd (GRPCStreamServerInterceptor tt plainServerStream echoLoop sampleWorld)) =
    bags sampleWorld.
Proof.
  split; [exact bareCtx_live|]. split; [reflexivity|].
  exact (stream_server_without_header_passes_through tt sampleWorld plainServerStream
           echoLoop bareCtx_live eq_refl).
Defined.

Lemma unary_server_with_header_finishes_span_witness :
  incomingHeader serverCtx serverWorld = Some ["abc/4"; "2;o=1"] /\
  exists q sp,
    spans serverWorld !! q = None /\
    fst (GRPCServerInterceptor tt serverCtx "ping" panickingHandler serverWorld) =
      fst (panickingHandler (NewContext serverCtx (Some q)) "ping"
             (transport serverWorld)) /\
    transport (snd (GRPCServerInterceptor tt serverCtx "ping" panickingHandler
                      serverWorld)) =
      snd (panickingHandler (NewContext serverCtx (Some q)) "ping"
             (transport serverWorld)) /\
    history (snd (GRPCServerInterceptor tt serverCtx "ping" panickingHandler
                    serverWorld)) =
      history serverWorld ++ [EvHandler (NewContext serverCtx (Some q)); EvFinish q] /\
    spans (snd (GRPCServerInterceptor tt serverCtx "ping" panickingHandler serverWorld))
      !! q = Some sp /\
    finished sp = true /\
    reported (snd (GRPCServerInterceptor tt serverCtx "ping" panickingHandler
                     serverWorld)) = reported serverWorld ++ [q] /\
    bags (snd (GRPCServerInterceptor tt serverCtx "ping" panickingHandler serverWorld)) =
      bags serverWorld /\
    (forall p, p <> q ->
       spans (snd (GRPCServerInterceptor tt serverCtx "ping" panickingHandler
                     serverWorld)) !! p = spans serverWorld !! p).
Proof.
  split; [reflexivity|].
  exact (unary_server_with_header_finishes_span tt serverWorld serverCtx "ping"
           panickingHandler ["abc/4"; "2;o=1"] eq_refl).
Defined.

Lemma unary_client_finishes_child_once_witness :
  FromContext sampleCtx = Some 5%positive /\
  spans sampleWorld !! 5%positive = Some sampleSpan /\
  liveContext sampleCtx sampleWorld /\
  exists ctx' md c child,
    spans sampleWorld !! c = None /\
    fst (grpcUnaryInterceptor sampleCtx "Echo" "ping" panickingInvoker sampleWorld) =
      fst (panickingInvoker ctx' md "Echo" "ping" (transport sampleWorld)) /\
    transport (snd (grpcUnaryInterceptor sampleCtx "Echo" "ping" panickingInvoker
                      sampleWorld)) =
      snd (panickingInvoker ctx' md "Echo" "ping" (transport sampleWorld)) /\
    history (snd (grpcUnaryInterceptor sampleCtx "Echo" "ping" panickingInvoker
                    sampleWorld)) =
      history sampleWorld ++ [EvInvoke ctx' md; EvFinish c] /\
    spans (snd (grpcUnaryInterceptor sampleCtx "Echo" "ping" panickingInvoker
                  sampleWorld)) !! c = Some child /\
    finished child = true /\
    reported (snd (grpcUnaryInterceptor sampleCtx "Echo" "ping" panickingInvoker
                     sampleWorld)) = reported sampleWorld ++ [c] /\
    spans (snd (grpcUnaryInterceptor sampleCtx "Echo" "ping" panickingInvoker
                  sampleWorld)) !! 5%positive = Some sampleSpan /\
    (forall p', p' <> c ->
       spans (snd (grpcUnaryInterceptor sampleCtx "Echo" "ping" panickingInvoker
                     sampleWorld)) !! p' = spans sampleWorld !! p').
Proof.
  split; [reflexivity|]. split; [reflexivity|]. split; [exact sampleCtx_live|].
  exact (unary_client_finishes_child_once sampleWorld sampleCtx "Echo" "ping"
           panickingInvoker 5%positive sampleSpan eq_refl eq_refl sampleCtx_live).
Defined.

Lemma client_interceptors_create_bag_witness :
  FromContext spanOnlyCtx = Some 5%positive /\
  spans sampleWorld !! 5%positive = Some sampleSpan /\
  FromOutgoingContext spanOnlyCtx = None /\
  exists l' h,
    bags sampleWorld !! l' = None /\
    (bags (snd (grpcUnaryInterceptor spanOnlyCtx "Echo" "ping" failingInvoker
                  sampleWorld)) =
       <[l' := {[ grpcMetadataKey := [h] ]}]> (bags sampleWorld) /\
     exists c,
       history (snd (grpcUnaryInterceptor spanOnlyCtx "Echo" "ping" failingInvoker
                       sampleWorld)) =
         history sampleWorld ++
           [EvInvoke (NewOutgoingContext spanOnlyCtx l')
              (Some {[ grpcMetadataKey := [h] ]});
            EvFinish c]) /\
    (bags (snd (grpcStreamClientInterceptor spanOnlyCtx "Echo" healthyStreamer
                  sampleWorld)) =
       <[l' := {[ grpcMetadataKey := [h] ]}]> (bags sampleWorld) /\
     exists tail,
       history (snd (grpcStreamClientInterceptor spanOnlyCtx "Echo" healthyStreamer
                       sampleWorld)) =
         history sampleWorld ++
           EvStreamer (NewOutgoingContext spanOnlyCtx l')
             (Some {[ grpcMetadataKey := [h] ]}) :: tail).
Proof.
  split; [reflexivity|]. split; [reflexivity|]. split; [reflexivity|].
  exact (client_interceptors_create_bag sampleWorld spanOnlyCtx "Echo" "ping"
           failingInvoker healthyStreamer 5%positive sampleSpan
           eq_refl eq_refl eq_refl).
Defined.

Lemma stream_client_success_returns_open_wrapper_witness :
  FromContext sampleCtx = Some 5%positive /\
  spans sampleWorld !! 5%positive = Some sampleSpan /\
  liveContext sampleCtx sampleWorld /\
  exists ctx' md c,
    spans sampleWorld !! c = None /\
    (exists tail,
       history (snd (grpcStreamClientInterceptor sampleCtx "Echo" healthyStreamer
                       sampleWorld)) =
         history sampleWorld ++ EvStreamer ctx' md :: tail) /\
    forall cs, fst (healthyStreamer ctx' md "Echo" (transport sampleWorld)) = Val (inl cs) ->
      fst (grpcStreamClientInterceptor sampleCtx "Echo" healthyStreamer sampleWorld) =
        Val (Some (mkClientStreamWrapper cs (Some c)), None) /\
      history (snd (grpcStreamClientInterceptor sampleCtx "Echo" healthyStreamer
                      sampleWorld)) =
        history sampleWorld ++ [EvStreamer ctx' md] /\
      reported (snd (grpcStreamClientInterceptor sampleCtx "Echo" healthyStreamer
                       sampleWorld)) = reported sampleWorld /\
      exists child,
        spans (snd (grpcStreamClientInterceptor sampleCtx "Echo" healthyStreamer
                      sampleWorld)) !! c = Some child /\
        Name (span child) = "Echo" /\
        ParentSpanId (span child) = SpanId (span sampleSpan) /\
        finished child = false.
Proof.
  split; [reflexivity|]. split; [reflexivity|]. split; [exact sampleCtx_live|].
  exact (stream_client_success_returns_open_wrapper sampleWorld sampleCtx "Echo"
           healthyStreamer 5%positive sampleSpan eq_refl eq_refl sampleCtx_live).
Defined.

Lemma stream_client_panic_leaves_child_open_witness :
  FromContext sampleCtx = Some 5%positive /\
  spans sampleWorld !! 5%positive = Some sampleSpan /\
  liveContext sampleCtx sampleWorld /\
  exists ctx' md c,
    spans sampleWorld !! c = None /\
    (exists tail,
       history (snd (grpcStreamClientInterceptor sampleCtx "Echo" panickingStreamer
                       sampleWorld)) =
         history sampleWorld ++ EvStreamer ctx' md :: tail) /\
    (fst (panickingStreamer ctx' md "Echo" (transport sampleWorld)) = Panic ->
      fst (grpcStreamClientInterceptor sampleCtx "Echo" panickingStreamer sampleWorld) =
        Panic /\
      history (snd (grpcStreamClientInterceptor sampleCtx "Echo" panickingStreamer
                      sampleWorld)) =
        history sampleWorld ++ [EvStreamer ctx' md] /\
      reported (snd (grpcStreamClientInterceptor sampleCtx "Echo" panickingStreamer
                       sampleWorld)) = reported sampleWorld /\
      exists child,
        spans (snd (grpcStreamClientInterceptor sampleCtx "Echo" panickingStreamer
                      sampleWorld)) !! c = Some child /\
        ParentSpanId (span child) = SpanId (span sampleSpan) /\
        finished child = false).
Proof.
  split; [reflexivity|]. split; [reflexivity|]. split; [exact sampleCtx_live|].
  exact (stream_client_panic_leaves_child_open sampleWorld sampleCtx "Echo"
           panickingStreamer 5%positive sampleSpan eq_refl eq_refl sampleCtx_live).
Defined.

Lemma stream_client_without_span_passes_through_witness :
  FromContext bareCtx = None /\
  fst (grpcStreamClientInterceptor bareCtx "Echo" healthyStreamer sampleWorld) =
    match fst (healthyStreamer bareCtx (outgoingMD bareCtx sampleWorld) "Echo"
                 (transport sampleWorld)) with
    | Val (inl cs) => Val (Some (mkClientStreamWrapper cs None), None)
    | Val (inr err) => Val (None, Some err)
    | Panic => Panic
    end /\
  history (snd (grpcStreamClientInterceptor bareCtx "Echo" healthyStreamer sampleWorld)) =
    history sampleWorld ++ [EvStreamer bareCtx (outgoingMD bareCtx sampleWorld)] /\
  spans (snd (grpcStreamClientInterceptor bareCtx "Echo" healthyStreamer sampleWorld)) =
    spans sampleWorld /\
  bags (snd (grpcStreamClientInterceptor bareCtx "Echo" healthyStreamer sampleWorld)) =
    bags sampleWorld /\
  reported (snd (grpcStreamClientInterceptor bareCtx "Echo" healthyStreamer sampleWorld)) =
    reported sampleWorld.
Proof.
  split; [reflexivity|].
  exact (stream_client_without_span_passes_through sampleWorld bareCtx "Echo"
           healthyStreamer eq_refl).
Defined.

Lemma established_stream_reports_child_once_witness :
  FromContext sampleCtx = Some 5%positive /\
  spans sampleWorld !! 5%positive = Some sampleSpan /\
  liveContext sampleCtx sampleWorld /\
  fst (grpcStreamClientInterceptor sampleCtx "Echo" healthyStreamer sampleWorld) =
    Val (Some establishedWrapper, None) /\
  exists c es,
    spans sampleWorld !! c = None /\
    csw_span establishedWrapper = Some c /\
    fst (runClientOps establishedWrapper [OpSendMsg "a"; OpCloseSend; OpRecvMsg; OpRecvMsg]
           (snd (grpcStreamClientInterceptor sampleCtx "Echo" healthyStreamer
                   sampleWorld))) = Val es /\
    history (snd (runClientOps establishedWrapper
                    [OpSendMsg "a"; OpCloseSend; OpRecvMsg; OpRecvMsg]
                    (snd (grpcStreamClientInterceptor sampleCtx "Echo" healthyStreamer
                            sampleWorld)))) =
      history (snd (grpcStreamClientInterceptor sampleCtx "Echo" healthyStreamer
                      sampleWorld)) ++
        replicate (finishingCalls [OpSendMsg "a"; OpCloseSend; OpRecvMsg; OpRecvMsg] es)
          (EvFinish c) /\
    reported (snd (runClientOps establishedWrapper
                     [OpSendMsg "a"; OpCloseSend; OpRecvMsg; OpRecvMsg]
                     (snd (grpcStreamClientInterceptor sampleCtx "Echo" healthyStreamer
                             sampleWorld)))) =
      match finishingCalls [OpSendMsg "a"; OpCloseSend; OpRecvMsg; OpRecvMsg] es with
      | O => reported sampleWorld
      | S _ => reported sampleWorld ++ [c]
      end.
Proof.
  assert (H : fst (grpcStreamClientInterceptor sampleCtx "Echo" healthyStreamer
                     sampleWorld) = Val (Some establishedWrapper, None))
    by (vm_compute; reflexivity).
  split; [reflexivity|]. split; [reflexivity|]. split; [exact sampleCtx_live|].
  split; [exact H|].
  exact (established_stream_reports_child_once sampleWorld sampleCtx "Echo"
           healthyStreamer 5%positive sampleSpan establishedWrapper
           [OpSendMsg "a"; OpCloseSend; OpRecvMsg; OpRecvMsg]
           eq_refl eq_refl sampleCtx_live H).
Defined.

(** The ending stream in use through its wrapper: a send, the half-close
    and two receives that report the end of the stream; [Finish] is called
    at the half-close and at either receive, and the span is reported at the
    first of the three. *)
Example ending_stream_in_use :
  fst (runClientOps endingWrapper [OpSendMsg "a"; OpCloseSend; OpRecvMsg; OpRecvMsg]
         sampleWorld) =
    Val [None; None; Some (mkError 0 "EOF"); Some (mkError 0 "EOF")] /\
  history (snd (runClientOps endingWrapper
                  [OpSendMsg "a"; OpCloseSend; OpRecvMsg; OpRecvMsg] sampleWorld)) =
    [EvFinish 5%positive; EvFinish 5%positive; EvFinish 5%positive] /\
  reported (snd (runClientOps endingWrapper
                   [OpSendMsg "a"; OpCloseSend; OpRecvMsg; OpRecvMsg] sampleWorld)) =
    [5%positive].
Proof. repeat split; vm_compute; reflexivity. Qed.
